(** * ProxyAgent CoreService: streaming relay and conversation-session mapping

    A shallow embedding of [CoreService/main.py] and [CoreService/storage.py].

    Conventions of the embedding.
    - A Python [str] is a [string]: the sequence of its UTF-8 bytes.  The
      functions below only look for ASCII characters (the newline, the letters
      of the word calendar), and UTF-8 never uses a byte below 128 inside the
      encoding of another character, so searching bytes and searching code
      points agree.
    - A Python [dict] is a [gmap].
    - An async generator is run to its end: its result is the list of what
      it did, in order (the frames it yielded, its calls on the backend and
      on the store), together with the final dictionary of the store.
      Requests are run one after the other; interleaving of several requests
      is not modelled.
    - The backend agent is an external collaborator: a record of the two
      methods the relay calls, each of which may raise.
    - An exception is one of class [Exception], which is what the handlers
      of the source catch.  Cancellation of a request and the other
      exceptions outside that class are not modelled.
    - Logging, [print] and the timing bookkeeping of [generate_response] have
      no effect on the frames, the store or the backend calls and are left
      out. *)

From Stdlib Require Import ZArith Ascii String List Bool Lia.
From stdpp Require Import base option gmap strings list fin_maps pretty.

Local Open Scope Z_scope.

(** ** Python string primitives *)

Module Py.

(** The line feed, written ["\n"] in the source. *)
Definition LF : ascii := Ascii.ascii_of_nat 10.
Definition NL : string := String LF EmptyString.

(** [s.split(sep)] for a one-character separator: the pieces between the
    occurrences of [sep]; there is always at least one piece. *)
Fixpoint split (sep : ascii) (s : string) : list string :=
  match s with
  | EmptyString => [EmptyString]
  | String c r =>
      if Ascii.eqb c sep then EmptyString :: split sep r
      else match split sep r with
           | l :: ls => String c l :: ls
           | [] => [String c EmptyString]
           end
  end.

(** [sep.join(l)]. *)
Fixpoint join (sep : string) (l : list string) : string :=
  match l with
  | [] => EmptyString
  | [x] => x
  | x :: rest => x +:+ sep +:+ join sep rest
  end.

(** [c in s] for a character. *)
Fixpoint has_char (c : ascii) (s : string) : bool :=
  match s with
  | EmptyString => false
  | String a r => Ascii.eqb a c || has_char c r
  end.

(** [s.count(c)] for a character. *)
Fixpoint count_char (c : ascii) (s : string) : nat :=
  match s with
  | EmptyString => 0%nat
  | String a r => ((if Ascii.eqb a c then 1 else 0) + count_char c r)%nat
  end.

(** [s.startswith(p)]. *)
Fixpoint startswith (p s : string) : bool :=
  match p, s with
  | EmptyString, _ => true
  | String a p', String b s' => Ascii.eqb a b && startswith p' s'
  | String _ _, EmptyString => false
  end.

(** [needle in hay] for strings. *)
Fixpoint contains (needle hay : string) : bool :=
  startswith needle hay ||
  match hay with
  | EmptyString => false
  | String _ r => contains needle r
  end.

(** [c.lower()] on one byte: the letters A to Z move to a to z.  Python
    also lowers letters outside ASCII; none of them becomes one of the
    letters a, c, d, e, l, n, r, and their UTF-8 bytes are all above 127,
    so leaving them alone does not change whether the word calendar
    occurs in the lowered text. *)
Definition lower_char (c : ascii) : ascii :=
  let n := Ascii.N_of_ascii c in
  if ((65 <=? n) && (n <=? 90))%N then Ascii.ascii_of_N (n + 32) else c.

(** [s.lower()]. *)
Fixpoint lower (s : string) : string :=
  match s with
  | EmptyString => EmptyString
  | String c r => String (lower_char c) (lower r)
  end.

(** Truth value of a [str]: the empty string is false. *)
Definition truthy (s : string) : bool :=
  match s with EmptyString => false | String _ _ => true end.

(** Truth value of a [str | None]. *)
Definition truthy_opt (o : option string) : bool :=
  match o with None => false | Some s => truthy s end.

End Py.

(** ** Helper functions of [main.py] *)

(** [format_sse(data, event="text")], lines 291 to 295. *)
Definition format_sse (data : string) (event : string) : string :=
  let lines := Py.split Py.LF data in
  let sse_data := Py.join Py.NL (map (fun line => "data: " +:+ line) lines) in
  "event: " +:+ event +:+ Py.NL +:+ sse_data +:+ Py.NL +:+ Py.NL.

(** The default value of the [event] argument. *)
Definition format_sse_default (data : string) : string := format_sse data "text".

(** ** [storage.py] *)

(** [InMemoryStorage]: the dictionary [_data].  The lock only serialises
    accesses and has no effect on the values. *)
Module InMemoryStorage.

(** [__init__]: an empty dictionary. *)
Definition init : gmap string string := ∅.

(** [get_internal_id], lines 30 to 32: [self._data.get(external_id)]. *)
Definition get_internal_id (_data : gmap string string) (external_id : string)
  : option string :=
  _data !! external_id.

(** [save_mapping], lines 34 to 37: [self._data[external_id] = internal_id]. *)
Definition save_mapping (_data : gmap string string) (external_id internal_id : string)
  : gmap string string :=
  <[external_id := internal_id]> _data.

(** A call on the store, and the run of a sequence of calls: the final
    dictionary and the values the lookups returned, in order. *)
Inductive op :=
| GetInternalId (external_id : string)
| SaveMapping (external_id internal_id : string).

Fixpoint run (ops : list op) (_data : gmap string string)
  : gmap string string * list (option string) :=
  match ops with
  | [] => (_data, [])
  | GetInternalId e :: rest =>
      let '(d, outs) := run rest _data in (d, get_internal_id _data e :: outs)
  | SaveMapping e i :: rest => run rest (save_mapping _data e i)
  end.

(** The call leaves the entry [e -> i] as it is: it is a lookup, a save
    for another external id, or a save of [i] again. *)
Definition keeps (e i : string) (o : op) : bool :=
  match o with
  | GetInternalId _ => true
  | SaveMapping e' j => negb (bool_decide (e' = e)) || bool_decide (j = i)
  end.

(** The internal id the last [SaveMapping] of [e] in [ops] recorded, if any. *)
Fixpoint last_saved (e : string) (ops : list op) : option string :=
  match ops with
  | [] => None
  | GetInternalId _ :: rest => last_saved e rest
  | SaveMapping e' i :: rest =>
      match last_saved e rest with
      | Some j => Some j
      | None => if bool_decide (e' = e) then Some i else None
      end
  end.

End InMemoryStorage.

(** ** Data of [main.py] *)

(** The double quote, for the JSON texts. *)
Definition DQ : string := String (Ascii.ascii_of_nat 34) EmptyString.

(** [class Usage(BaseModel)], lines 82 to 86. *)
Record Usage := {
  input_tokens : Z;
  output_tokens : Z;
  total_tokens : Z
}.

(** [usage.model_dump_json()]: pydantic writes the fields in declaration
    order, without spaces. *)
Definition model_dump_json (u : Usage) : string :=
  "{" +:+ DQ +:+ "input_tokens" +:+ DQ +:+ ":" +:+ pretty (input_tokens u) +:+
  "," +:+ DQ +:+ "output_tokens" +:+ DQ +:+ ":" +:+ pretty (output_tokens u) +:+
  "," +:+ DQ +:+ "total_tokens" +:+ DQ +:+ ":" +:+ pretty (total_tokens u) +:+ "}".

(** The backend's usage payload [content.usage_details]: a dictionary whose
    counts are integers or [None] (JSON null); a key may be missing. *)
Abbreviation UsageDetails := (gmap string (option Z)).

(** [d.get(key, 0) or 0]: [get] gives the default only when the key is
    missing; [or 0] then replaces [None] (and a zero) by 0. *)
Definition dict_get (d : UsageDetails) (key : string) (default : option Z) : option Z :=
  match d !! key with
  | Some v => v
  | None => default
  end.

Definition or_zero (v : option Z) : Z :=
  match v with
  | Some n => if Z.eqb n 0 then 0 else n
  | None => 0
  end.

(** The [Usage(...)] construction of lines 131 to 135. *)
Definition usage_of_details (d : UsageDetails) : Usage :=
  {| input_tokens := or_zero (dict_get d "input_token_count" (Some 0));
     output_tokens := or_zero (dict_get d "output_token_count" (Some 0));
     total_tokens := or_zero (dict_get d "total_token_count" (Some 0)) |}.

(** An exception, by the text [str(e)] gives. *)
Definition Exn := string.

(** One content item of a backend chunk: its [type] and, for usage items,
    the payload.  [usage_details] is [None] on a malformed item. *)
Module Content.
Record t := {
  type : string;
  usage_details : option UsageDetails
}.
End Content.

(** One unit of the backend stream: [chunk.text] and [chunk.contents]. *)
Module Chunk.
Record t := {
  text : string;
  contents : list Content.t
}.
End Chunk.

(** [class StreamRequest(BaseModel)], lines 284 to 287. *)
Module StreamRequest.
Record t := {
  text : string;
  conversationId : string
}.
End StreamRequest.

(** The thread handle; [service_thread_id] is [None] until the backend has
    assigned an id. *)
Record AgentThread := {
  service_thread_id : option string
}.

(** What one call of [agent.run_stream] does: the chunks it produces, the
    exception that ends it if it fails, and the id the thread handle carries
    once the stream is over (the backend writes it into the handle). *)
Record Stream := {
  chunks : list Chunk.t;
  failure : option Exn;
  assigned_thread_id : option string
}.

Inductive Outcome (A : Type) :=
| Returned (a : A)
| Raised (e : Exn).
Arguments Returned {A} a.
Arguments Raised {A} e.

(** The backend agent, an external collaborator: only its name and the two
    methods [generate_response] calls. *)
Record ChatAgent := {
  name : string;
  get_new_thread : option string -> Outcome AgentThread;
  run_stream : string -> AgentThread -> Stream
}.

(** [class AIFClient]; its [storage] is part of the state below. *)
Record AIFClient := {
  chat_agent : ChatAgent;
  builder_agent : ChatAgent
}.

(** What a request does, in the order it does it: the frames it yields, its
    calls on the backend (by agent name) and its calls on the store. *)
Inductive Event :=
| Yield (frame : string)
| GetNewThread (agent : string) (thread_id : option string)
| RunStream (agent : string) (user_input : string) (thread : AgentThread)
| StoreGet (external_id : string)
| StoreSave (external_id internal_id : string).

(** ** Generators: yields, state and exceptions *)

(** A generator body run to its end, from the dictionary of the store: the
    events in order, the final dictionary and how the body ended. *)
Definition Gen (A : Type) : Type :=
  gmap string string -> list Event * gmap string string * Outcome A.

Definition ret {A} (a : A) : Gen A := fun st => ([], st, Returned a).

Definition bind {A B} (m : Gen A) (k : A -> Gen B) : Gen B := fun st =>
  match m st with
  | (evs, st1, Returned a) =>
      let '(evs2, st2, r) := k a st1 in (evs ++ evs2, st2, r)
  | (evs, st1, Raised e) => (evs, st1, Raised e)
  end.

Notation "x <- m ;; k" := (bind m (fun x => k))
  (at level 100, m at next level, right associativity).
Notation "m ;;; k" := (bind m (fun _ => k))
  (at level 100, right associativity).

Definition emit (ev : Event) : Gen unit := fun st => ([ev], st, Returned tt).

(** [yield frame]. *)
Definition yield (frame : string) : Gen unit := emit (Yield frame).

Definition raise {A} (e : Exn) : Gen A := fun st => ([], st, Raised e).

(** [try: body except Exception as e: handler(e)]. *)
Definition try_except {A} (body : Gen A) (handler : Exn -> Gen A) : Gen A := fun st =>
  match body st with
  | (evs, st1, Returned a) => (evs, st1, Returned a)
  | (evs, st1, Raised e) =>
      let '(evs2, st2, r) := handler e st1 in (evs ++ evs2, st2, r)
  end.

(** [for x in l: body(x)]. *)
Fixpoint for_each {A} (l : list A) (body : A -> Gen unit) : Gen unit :=
  match l with
  | [] => ret tt
  | x :: rest => body x ;;; for_each rest body
  end.

(** Lift a call that may raise. *)
Definition of_outcome {A} (o : Outcome A) : Gen A :=
  match o with
  | Returned a => ret a
  | Raised e => raise e
  end.

(** [await self.storage.get_internal_id(external_id)]. *)
Definition storage_get_internal_id (external_id : string) : Gen (option string) :=
  fun st => ([StoreGet external_id], st,
             Returned (InMemoryStorage.get_internal_id st external_id)).

(** [await self.storage.save_mapping(external_id, internal_id)]. *)
Definition storage_save_mapping (external_id internal_id : string) : Gen unit :=
  fun st => ([StoreSave external_id internal_id],
             InMemoryStorage.save_mapping st external_id internal_id, Returned tt).

(** [agent.get_new_thread(service_thread_id=thread_id)], and
    [agent.get_new_thread()] when [thread_id] is [None]. *)
Definition agent_get_new_thread (agent : ChatAgent) (thread_id : option string)
  : Gen AgentThread :=
  emit (GetNewThread (name agent) thread_id) ;;;
  of_outcome (get_new_thread agent thread_id).

(** [async for chunk in agent.run_stream(user_input, thread=thread): body];
    the result is the thread handle as the backend leaves it. *)
Definition agent_run_stream (agent : ChatAgent) (user_input : string)
    (thread : AgentThread) (body : Chunk.t -> Gen unit) : Gen AgentThread :=
  emit (RunStream (name agent) user_input thread) ;;;
  let s := run_stream agent user_input thread in
  for_each (chunks s) body ;;;
  match failure s with
  | Some e => raise e
  | None => ret {| service_thread_id := assigned_thread_id s |}
  end.

(** ** [AIFClient.generate_response], lines 96 to 153 *)

(** Line 102: ["calendar" in text.lower()]. *)
Definition is_calendar_request (text : string) : bool :=
  Py.contains "calendar" (Py.lower text).

(** Line 103: the agent variant. *)
Definition select_agent (self : AIFClient) (text : string) : ChatAgent :=
  if is_calendar_request text then builder_agent self else chat_agent self.

(** Lines 118 to 120: the text sent to the agent. *)
Definition user_input_of (text : string) : string :=
  if is_calendar_request text
  then text +:+ Py.NL +:+ Py.NL +:+ "Return the response in JSON format."
  else text.

(** Lines 108 to 113: the id the thread is asked with, the stored one when
    it is truthy. *)
Definition resume_id (thread_id : option string) : option string :=
  if Py.truthy_opt thread_id then thread_id else None.

Section Relay.

(** [json.dumps] of a [str], from Python's standard library: the quoted,
    escaped text.  The relay only passes its result on. *)
Variable json_dumps_str : string -> string.

(** [json.dumps({"error": str(e)})]. *)
Definition json_dumps_error (e : Exn) : string :=
  "{" +:+ DQ +:+ "error" +:+ DQ +:+ ": " +:+ json_dumps_str e +:+ "}".

(** Lines 130 to 137: one content item of a chunk without text.  Reading
    [.get] on a missing payload raises [AttributeError]. *)
Definition on_content (content : Content.t) : Gen unit :=
  if String.eqb (Content.type content) "usage" then
    match Content.usage_details content with
    | Some d =>
        let usage := usage_of_details d in
        yield (format_sse (model_dump_json usage) "usage")
    | None => raise "'NoneType' object has no attribute 'get'"
    end
  else ret tt.

(** Lines 125 to 137: the body of the [async for]. *)
Definition on_chunk (chunk : Chunk.t) : Gen unit :=
  if Py.truthy (Chunk.text chunk) then
    yield (format_sse_default (Chunk.text chunk))
  else
    for_each (Chunk.contents chunk) on_content.

(** Lines 101 to 144: the body of the [try]. *)
Definition generate_response_try (self : AIFClient) (text conversation_id : string)
  : Gen unit :=
  let agent := select_agent self text in
  thread_id <- storage_get_internal_id conversation_id ;;
  thread <- (if Py.truthy_opt thread_id
             then agent_get_new_thread agent thread_id
             else agent_get_new_thread agent None) ;;
  let user_input := user_input_of text in
  thread <- agent_run_stream agent user_input thread on_chunk ;;
  match service_thread_id thread with
  | Some new_id =>
      if negb (Py.truthy_opt thread_id) && Py.truthy new_id
      then storage_save_mapping conversation_id new_id
      else ret tt
  | None => ret tt
  end.

(** Lines 146 to 148: the [except Exception] handler. *)
Definition generate_response_except (e : Exn) : Gen unit :=
  yield (format_sse (json_dumps_error e) "error").

Definition generate_response (self : AIFClient) (text conversation_id : string)
  : Gen unit :=
  try_except (generate_response_try self text conversation_id)
             generate_response_except.

(** ** The endpoint, lines 308 to 318 *)

(** What the handler hands to the framework: the raised [HTTPException],
    or a [StreamingResponse] around the generator, which has not run yet. *)
Inductive Response :=
| HTTPException (status_code : Z) (detail : string)
| StreamingResponse (content : Gen unit) (media_type : string)
                    (headers : list (string * string)).

(** [payload] is the parsed body; [aif_client] is
    [request.app.state.aif_client]. *)
Definition stream_messages (payload : StreamRequest.t) (aif_client : AIFClient)
  : Response :=
  if negb (Py.truthy (StreamRequest.conversationId payload)) then
    HTTPException 400 "conversationId cannot be null or empty."
  else
    StreamingResponse
      (generate_response aif_client (StreamRequest.text payload)
                         (StreamRequest.conversationId payload))
      "text/event-stream" [("Cache-Control", "no-cache")].

(** The framework sends the response: an [HTTPException] becomes an error
    response and nothing else happens; a [StreamingResponse] has status
    200 and its generator is run. *)
Definition send (r : Response) (st : gmap string string)
  : Z * list Event * gmap string string :=
  match r with
  | HTTPException status_code _ => (status_code, [], st)
  | StreamingResponse content _ _ =>
      let '(evs, st', _) := content st in (200, evs, st')
  end.

End Relay.

(** ** Reading the events *)

(** The frames among the events: what the client receives. *)
Definition frames (evs : list Event) : list string :=
  omap (fun ev => match ev with Yield f => Some f | _ => None end) evs.

(** The calls on the backend among the events. *)
Definition is_backend_call (ev : Event) : bool :=
  match ev with
  | GetNewThread _ _ | RunStream _ _ _ => true
  | _ => false
  end.

Definition backend_calls (evs : list Event) : list Event :=
  List.filter is_backend_call evs.

(** The insertions into the store among the events. *)
Definition saves (evs : list Event) : list (string * string) :=
  omap (fun ev => match ev with StoreSave e i => Some (e, i) | _ => None end) evs.

(** The frame opens an [error] event. *)
Definition is_error_frame (frame : string) : bool :=
  Py.startswith ("event: error" +:+ Py.NL) frame.

(** The event is a yielded frame of a [text] or [usage] event. *)
Definition is_data_yield (ev : Event) : bool :=
  match ev with
  | Yield f => negb (is_error_frame f)
  | _ => false
  end.

(** [json.dumps] of a text that needs no escaping (printable ASCII without
    quote or backslash), for the worked examples. *)
Definition json_dumps_plain (s : string) : string := DQ +:+ s +:+ DQ.

(** The stores the service can be in: the empty store of start-up, and the
    store any request leaves behind. *)
Inductive served : gmap string string -> Prop :=
| served_init : served InMemoryStorage.init
| served_request json self text cid st :
    served st ->
    served (snd (fst (generate_response json self text cid st))).

(** The text contains the word calendar in some mix of upper and lower
    case: a piece of it lowers to that word. *)
Definition mentions_calendar (text : string) : Prop :=
  exists pre mid post, text = pre +:+ mid +:+ post /\ Py.lower mid = "calendar".

(** The instruction appended for the structured-output variant. *)
Definition json_instruction : string :=
  Py.NL +:+ Py.NL +:+ "Return the response in JSON format.".

(** The count the usage record shows for a key of the payload: the integer
    stored there, and 0 when the key is missing or holds [None]. *)
Definition count_or_default (d : UsageDetails) (key : string) : Z :=
  match d !! key with
  | Some (Some n) => n
  | Some None | None => 0
  end.

(** ** Backends for the worked examples *)

(** An agent whose thread handle carries the id it is asked with and whose
    stream is [s] whatever it is sent. *)
Definition scripted_agent (nm : string) (s : Stream) : ChatAgent :=
  {| name := nm;
     get_new_thread := fun thread_id => Returned {| service_thread_id := thread_id |};
     run_stream := fun _ _ => s |}.

Definition scripted_client (s : Stream) : AIFClient :=
  {| chat_agent := scripted_agent "chat" s;
     builder_agent := scripted_agent "builder" s |}.

Definition text_chunk (t : string) : Chunk.t :=
  {| Chunk.text := t; Chunk.contents := [] |}.

Definition usage_chunk (d : option UsageDetails) : Chunk.t :=
  {| Chunk.text := EmptyString;
     Chunk.contents := [{| Content.type := "usage"; Content.usage_details := d |}] |}.

(** The payload of the specification's example: input missing, output
    null, total 5. *)
Definition partial_usage : UsageDetails :=
  <["total_token_count" := Some 5]> (<["output_token_count" := None]> ∅).

(** A turn that ends well on a thread the backend names [thread-1]. *)
Definition good_stream : Stream :=
  {| chunks := [text_chunk "Hel"; text_chunk "lo"; usage_chunk (Some partial_usage)];
     failure := None;
     assigned_thread_id := Some "thread-1" |}.

(** A turn that breaks after one chunk, the thread being named already. *)
Definition broken_stream : Stream :=
  {| chunks := [text_chunk "Hel"];
     failure := Some "backend unavailable";
     assigned_thread_id := Some "thread-1" |}.

(** A turn with a usage item that has no payload. *)
Definition malformed_stream : Stream :=
  {| chunks := [text_chunk "Hel"; usage_chunk None; text_chunk "lo"];
     failure := None;
     assigned_thread_id := Some "thread-1" |}.

(** A turn that ends well without the backend naming the thread. *)
Definition unnamed_stream : Stream :=
  {| chunks := [text_chunk "hi"];
     failure := None;
     assigned_thread_id := None |}.

(** The wire layout of section 6 of the specification, written from its
    words: the event line, one [data: ] line per payload line, and a blank
    line. *)
Definition data_lines (lines : list string) : string :=
  fold_right (fun line rest => "data: " +:+ line +:+ Py.NL +:+ rest) EmptyString lines.

Definition frame_of_lines (event : string) (lines : list string) : string :=
  "event: " +:+ event +:+ Py.NL +:+ data_lines lines +:+ Py.NL.

(** The text contains the word in some mix of upper and lower case: a
    piece of it lowers to the word. *)
Definition mentions (word text : string) : Prop :=
  exists pre mid post, text = pre +:+ mid +:+ post /\ Py.lower mid = word.

(** ** Reading the frames on the wire *)

(** The text is a frame of one of the three events of the protocol. *)
Definition is_sse_frame (frame : string) : Prop :=
  exists data event,
    (event = "text" \/ event = "usage" \/ event = "error")
    /\ frame = format_sse data event.

(** ** Reading sequences of store calls *)

(** The external ids a sequence of calls saves a mapping for. *)
Definition saved_keys (ops : list InMemoryStorage.op) : list string :=
  omap (fun o => match o with
                 | InMemoryStorage.SaveMapping e _ => Some e
                 | InMemoryStorage.GetInternalId _ => None
                 end) ops.

(** ** Reading the chunks *)

(** The frames of the usage items of a chunk without text: one per item of
    type [usage] that carries a payload, in order. *)
Definition usage_frames (contents : list Content.t) : list string :=
  omap (fun content =>
          if String.eqb (Content.type content) "usage" then
            match Content.usage_details content with
            | Some d => Some (format_sse (model_dump_json (usage_of_details d)) "usage")
            | None => None
            end
          else None)
       contents.

(** The frames one chunk stands for: its text, or else its usage items. *)
Definition chunk_frames (chunk : Chunk.t) : list string :=
  if Py.truthy (Chunk.text chunk) then [format_sse_default (Chunk.text chunk)]
  else usage_frames (Chunk.contents chunk).

(** The content item can be processed: it is no usage item, or it has its
    payload. *)
Definition content_ok (content : Content.t) : bool :=
  negb (String.eqb (Content.type content) "usage")
  || match Content.usage_details content with Some _ => true | None => false end.

Definition chunk_ok (chunk : Chunk.t) : bool :=
  Py.truthy (Chunk.text chunk) || forallb content_ok (Chunk.contents chunk).

(** The requests of a client one after the other, each on the store the
    one before left: the events of all of them and the final store. *)
Fixpoint serve_all (json : string -> string) (self : AIFClient)
    (requests : list (string * string)) (st : gmap string string)
  : list Event * gmap string string :=
  match requests with
  | [] => ([], st)
  | (text, conversation_id) :: rest =>
      let '(evs, st1, _) := generate_response json self text conversation_id st in
      let '(evs2, st2) := serve_all json self rest st1 in
      (evs ++ evs2, st2)
  end.

(** ** The tool [get_daily_tasks], lines 41 to 57 *)

Module Task.
Record t := {
  id : string;
  title : string;
  completed : bool
}.
End Task.

(** The test is ["lital" in username.lower()].  As for the word calendar,
    lowering only ASCII letters gives the same answer as Python: the one
    letter of the word that a character outside ASCII can lower to is the i
    of the dotted capital I, which is then followed by a combining dot and
    so never by the t the word needs. *)
Definition get_daily_tasks (username : string) : list Task.t :=
  if Py.contains "lital" (Py.lower username) then
    [ {| Task.id := "task1"; Task.title := "Take daughter from kindergarten";
         Task.completed := false |};
      {| Task.id := "task2"; Task.title := "Make dinner"; Task.completed := true |};
      {| Task.id := "task3"; Task.title := "Read a chapter in my book";
         Task.completed := false |} ]
  else
    [ {| Task.id := "task1"; Task.title := "Finish the quarterly report";
         Task.completed := false |};
      {| Task.id := "task2"; Task.title := "Prepare for the team meeting";
         Task.completed := true |};
      {| Task.id := "task3"; Task.title := "Review pull requests";
         Task.completed := false |} ].

(** ** Actions: calls on a collaborator and exceptions *)

(** Code that calls an external collaborator and may raise, run to its end:
    the calls made, in order, and how it ended. *)
Definition Act (E A : Type) : Type := list E * Outcome A.

Definition act_ret {E A} (a : A) : Act E A := ([], Returned a).

Definition act_bind {E A B} (m : Act E A) (k : A -> Act E B) : Act E B :=
  match m with
  | (evs, Returned a) => let '(evs2, r) := k a in (evs ++ evs2, r)
  | (evs, Raised e) => (evs, Raised e)
  end.

Notation "x <-- m ;; k" := (act_bind m (fun x => k))
  (at level 100, m at next level, right associativity).

(** One call, with what it gives. *)
Definition act_call {E A} (ev : E) (o : Outcome A) : Act E A := ([ev], o).

Definition act_raise {E A} (e : Exn) : Act E A := ([], Raised e).

(** [try: body except Exception as e: handler(e)]. *)
Definition act_try {E A} (body : Act E A) (handler : Exn -> Act E A) : Act E A :=
  match body with
  | (evs, Returned a) => (evs, Returned a)
  | (evs, Raised e) => let '(evs2, r) := handler e in (evs ++ evs2, r)
  end.

(** ** Application lifecycle, lines 157 to 252 *)

Section Provisioning.

(** A tool object, and a value of a response-format dictionary. *)
Context {Tool Any : Type} `{EqDecision Tool} `{EqDecision Any}.

(** The agent as the provider hands it out: the handle the relay uses and
    what [setup_agent] reads from it.  [options_tools] and
    [options_response_format] are [default_options.get(...)], [None] when
    the key is missing; [options_instructions] keeps a missing key ([None])
    apart from a stored [None]; [model_id] is
    [additional_properties.get("model_id")]. *)
Record ProvisionedAgent := {
  handle : ChatAgent;
  agent_id : string;
  options_tools : option (list Tool);
  options_response_format : option (gmap string Any);
  options_instructions : option (option string);
  model_id : option string
}.

(** The agent provider, an external collaborator.  The [default_options]
    it is given are [None] or the dictionary with the one key
    [response_format], here by the value of that key. *)
Record Provider := {
  get_agent : string -> list Tool -> option (gmap string Any)
              -> Outcome ProvisionedAgent;
  create_agent : string -> option string -> option string -> list Tool
                 -> option (gmap string Any) -> Outcome ProvisionedAgent
}.

Inductive ProviderCall :=
| GetAgent (agent_name : string) (tools : list Tool)
           (default_options : option (gmap string Any))
| CreateAgent (agent_name : string) (model : option string)
              (instructions : option string) (tools : list Tool)
              (default_options : option (gmap string Any)).

(** Truth value of a [dict | None]: [None] and the empty dictionary are
    false. *)
Definition truthy_dict (d : option (gmap string Any)) : bool :=
  match d with
  | Some m => negb (bool_decide (m = ∅))
  | None => false
  end.

(** [default_options.get("instructions", "")]. *)
Definition instructions_or_empty (agent : ProvisionedAgent) : option string :=
  match options_instructions agent with
  | Some v => v
  | None => Some EmptyString
  end.

(** The message of the [ValueError] of line 195. *)
Definition setup_error (agent_name : string) (e : Exn) : Exn :=
  "Error occurred while setup of agent '" +:+ agent_name +:+ "': " +:+ e.

(** [setup_agent], lines 157 to 195. *)
Definition setup_agent (provider : Provider) (agent_name : string)
    (tools : list Tool) (response_format : option (gmap string Any))
  : Act ProviderCall ProvisionedAgent :=
  let default_options := if truthy_dict response_format then response_format else None in
  act_try
    (agent <-- act_call (GetAgent agent_name tools default_options)
                        (get_agent provider agent_name tools default_options) ;;
     if bool_decide (options_tools agent = Some tools)
        && bool_decide (options_response_format agent = response_format)
     then act_ret agent
     else
       agent <-- act_call
                   (CreateAgent agent_name (model_id agent) (instructions_or_empty agent)
                                tools default_options)
                   (create_agent provider agent_name (model_id agent)
                                 (instructions_or_empty agent) tools default_options) ;;
       act_ret agent)
    (fun e => act_raise (setup_error agent_name e)).

(** What [startup] leaves in [app.state]: the provider and the client with
    its store. *)
Record AppState := {
  state_provider : Provider;
  state_aif_client : AIFClient;
  state_storage : gmap string string
}.

(** [AzureAIProjectAgentProvider(credential, project_endpoint)]; the tool
    object [get_daily_tasks]; the two values of the calendar response
    format, [type] and [json_schema] (the latter holds
    [Calendar.model_json_schema()]). *)
Variable AzureAIProjectAgentProvider : string -> Provider.
Variable get_daily_tasks_tool : Tool.
Variable calendar_format_type : Any.
Variable calendar_json_schema : Any.

(** [os.getenv(key)] followed by the check [if not value: raise ValueError]. *)
Definition required_env (environ : gmap string string) (key : string)
  : Act ProviderCall string :=
  match environ !! key with
  | Some value =>
      if Py.truthy value then act_ret value
      else act_raise (key +:+ " environment variable is required")
  | None => act_raise (key +:+ " environment variable is required")
  end.

(** Lines 229 to 237. *)
Definition calendar_response_format : gmap string Any :=
  <["type" := calendar_format_type]> (<["json_schema" := calendar_json_schema]> ∅).

(** [startup], lines 197 to 252. *)
Definition startup (environ : gmap string string) : Act ProviderCall AppState :=
  project_endpoint <-- required_env environ "AIServices:AzureAIFoundryProjectEndpoint" ;;
  chat_agent_name <-- required_env environ "AIServices:ChatAgentID" ;;
  builder_agent_name <-- required_env environ "AIServices:BuilderAgentID" ;;
  let provider := AzureAIProjectAgentProvider project_endpoint in
  let tools := [get_daily_tasks_tool] in
  chat_agent <-- setup_agent provider chat_agent_name tools None ;;
  builder_agent <-- setup_agent provider builder_agent_name tools
                                (Some calendar_response_format) ;;
  let storage := InMemoryStorage.init in
  act_ret {| state_provider := provider;
             state_aif_client := {| chat_agent := handle chat_agent;
                                    builder_agent := handle builder_agent |};
             state_storage := storage |}.

End Provisioning.

(** ** A provider for the worked examples *)

(** The agent the scripted provider knows under one name, with the tools
    and response format it was last given. *)
Definition known_agent (nm : string) (tools : list string)
    (response_format : option (gmap string string))
  : ProvisionedAgent (Tool := string) (Any := string) :=
  {| handle := scripted_agent nm good_stream;
     agent_id := nm +:+ ":1";
     options_tools := Some tools;
     options_response_format := response_format;
     options_instructions := Some (Some "Be brief.");
     model_id := Some "gpt-4o" |}.

(** A provider whose agents are already set up with the tool [tasks]; the
    agent named [builder] has an older response format. *)
Definition scripted_provider (endpoint : string)
  : Provider (Tool := string) (Any := string) :=
  {| get_agent := fun nm tools opts =>
       if String.eqb nm "missing" then Raised "agent not found"
       else if String.eqb nm "builder"
            then Returned (known_agent nm ["tasks"] (Some {["type" := "text"]}))
            else Returned (known_agent nm ["tasks"] None);
     create_agent := fun nm model instructions tools opts =>
       Returned (known_agent nm tools opts) |}.

(** An environment with the three variables set. *)
Definition full_environ : gmap string string :=
  <["AIServices:AzureAIFoundryProjectEndpoint" := "https://example.test"]>
    (<["AIServices:ChatAgentID" := "chat"]>
       (<["AIServices:BuilderAgentID" := "builder"]> ∅)).

(** * Properties *)

(** ** Strings *)

Lemma append_cons (x : ascii) (a b : string) : String x a +:+ b = String x (a +:+ b).
Proof. reflexivity. Qed.

Lemma append_nil_l (b : string) : EmptyString +:+ b = b.
Proof. reflexivity. Qed.

Lemma append_assoc (a b c : string) : (a +:+ b) +:+ c = a +:+ (b +:+ c).
Proof.
  induction a as [|x a IH]; [reflexivity |].
  rewrite !append_cons. f_equal. exact IH.
Qed.

Lemma append_nil_r (a : string) : a +:+ EmptyString = a.
Proof.
  induction a as [|x a IH]; [reflexivity |].
  rewrite append_cons. f_equal. exact IH.
Qed.

Lemma split_not_nil sep s : Py.split sep s <> [].
Proof.
  destruct s as [|c r]; simpl; [discriminate |].
  destruct (Ascii.eqb c sep); [discriminate |].
  destruct (Py.split sep r); discriminate.
Qed.

(** Joining the pieces with the separator gives the text back. *)
Lemma join_split sep s : Py.join (String sep EmptyString) (Py.split sep s) = s.
Proof.
  induction s as [|c r IH]; simpl; [reflexivity |].
  destruct (Ascii.eqb_spec c sep) as [->|Hne].
  - pose proof (split_not_nil sep r) as Hnn.
    destruct (Py.split sep r) as [|l ls]; [contradiction |].
    change (Py.join (String sep EmptyString) (EmptyString :: l :: ls))
      with (String sep (Py.join (String sep EmptyString) (l :: ls))).
    now rewrite IH.
  - pose proof (split_not_nil sep r) as Hnn.
    destruct (Py.split sep r) as [|l ls]; [contradiction |].
    rewrite <- IH. destruct ls as [|l' ls]; reflexivity.
Qed.

(** No piece contains the separator. *)
Lemma split_no_sep sep s :
  Forall (fun l => Py.has_char sep l = false) (Py.split sep s).
Proof.
  induction s as [|c r IH]; simpl.
  - repeat constructor.
  - destruct (Ascii.eqb_spec c sep) as [->|Hne].
    + constructor; [reflexivity | exact IH].
    + destruct (Py.split sep r) as [|l ls]; simpl.
      * repeat constructor. simpl.
        destruct (Ascii.eqb_spec c sep); [contradiction | reflexivity].
      * inversion IH as [|? ? Hl Hls]; subst. constructor; [| exact Hls].
        simpl. destruct (Ascii.eqb_spec c sep); [contradiction | exact Hl].
Qed.

(** One piece more than there are separators. *)
Lemma split_length sep s :
  length (Py.split sep s) = S (Py.count_char sep s).
Proof.
  induction s as [|c r IH]; simpl; [reflexivity |].
  destruct (Ascii.eqb c sep); simpl.
  - now rewrite IH.
  - pose proof (split_not_nil sep r) as Hnn.
    destruct (Py.split sep r) as [|l ls]; [contradiction |]. exact IH.
Qed.

(** The pieces are the only way to cut the text at the separators. *)
Lemma split_join sep (lines : list string) :
  lines <> [] ->
  Forall (fun l => Py.has_char sep l = false) lines ->
  Py.split sep (Py.join (String sep EmptyString) lines) = lines.
Proof.
  induction lines as [|l ls IH]; [congruence |].
  intros _ Hall. inversion Hall as [|? ? Hl Hls]; subst.
  assert (Hone : forall tl, Py.has_char sep l = false ->
            Py.split sep (l +:+ String sep tl) = l :: Py.split sep tl).
  { clear. induction l as [|c l IHl]; intros tl Hc.
    - rewrite append_nil_l. simpl. now rewrite Ascii.eqb_refl.
    - simpl in Hc. apply orb_false_iff in Hc as [Hc1 Hc2].
      rewrite append_cons. simpl. rewrite Hc1.
      now rewrite (IHl tl Hc2). }
  destruct ls as [|l' ls'].
  - simpl. clear IH Hall Hls Hone.
    induction l as [|c l IHl]; simpl; [reflexivity |].
    simpl in Hl. apply orb_false_iff in Hl as [Hc1 Hc2].
    rewrite Hc1. now rewrite (IHl Hc2).
  - change (Py.join (String sep EmptyString) (l :: l' :: ls'))
      with (l +:+ String sep (Py.join (String sep EmptyString) (l' :: ls'))).
    rewrite (Hone _ Hl). f_equal. apply IH; [discriminate | exact Hls].
Qed.

(** Joined [data: ] lines followed by a line feed: each line ends its own
    line. *)
Lemma join_data_lines (lines : list string) :
  lines <> [] ->
  Py.join Py.NL (map (fun line => "data: " +:+ line) lines) +:+ Py.NL
  = data_lines lines.
Proof.
  induction lines as [|l ls IH]; [congruence |]. intros _.
  destruct ls as [|l' ls'].
  - simpl. unfold data_lines. simpl. now rewrite !append_assoc.
  - change (map (fun line => "data: " +:+ line) (l :: l' :: ls'))
      with (("data: " +:+ l) :: map (fun line => "data: " +:+ line) (l' :: ls')).
    change (Py.join Py.NL (("data: " +:+ l) :: map (fun line => "data: " +:+ line) (l' :: ls')))
      with (("data: " +:+ l) +:+ Py.NL +:+
            Py.join Py.NL (map (fun line => "data: " +:+ line) (l' :: ls'))).
    rewrite !append_assoc. rewrite IH by discriminate.
    reflexivity.
Qed.

Lemma format_sse_frame data event :
  format_sse data event = frame_of_lines event (Py.split Py.LF data).
Proof.
  unfold format_sse, frame_of_lines.
  rewrite <- (join_data_lines (Py.split Py.LF data)) by apply split_not_nil.
  now rewrite !append_assoc.
Qed.

(** C1. [format_sse] obeys the framing law: the two-line example gives
    exactly the frame of the specification, and for every payload the frame
    is the event line, then one [data: ] line for each piece of the payload
    cut at the line feeds (the pieces joined by line feeds are the payload,
    none contains a line feed, there is one more than there are line feeds,
    so empty lines are kept), then a blank line. *)
Theorem format_sse_framing_law :
  format_sse ("line1" +:+ Py.NL +:+ "line2") "text"
  = "event: text" +:+ Py.NL +:+ "data: line1" +:+ Py.NL +:+
    "data: line2" +:+ Py.NL +:+ Py.NL
  /\ forall data event,
       let lines := Py.split Py.LF data in
       Py.join Py.NL lines = data
       /\ Forall (fun l => Py.has_char Py.LF l = false) lines
       /\ length lines = S (Py.count_char Py.LF data)
       /\ format_sse data event
          = "event: " +:+ event +:+ Py.NL +:+ data_lines lines +:+ Py.NL.
Proof.
  split; [reflexivity |].
  intros data event lines. subst lines.
  split; [apply join_split |].
  split; [apply split_no_sep |].
  split; [apply split_length |].
  apply format_sse_frame.
Qed.

(** C9. The empty payload still gives one data line: the frame is the event
    line, an empty [data: ] line and the blank line, and it is not empty. *)
Theorem format_sse_empty_payload :
  Py.split Py.LF EmptyString = [EmptyString]
  /\ format_sse EmptyString "text"
     = "event: text" +:+ Py.NL +:+ "data: " +:+ Py.NL +:+ Py.NL
  /\ format_sse EmptyString "text" <> EmptyString.
Proof.
  split; [reflexivity |]. split; [reflexivity | discriminate].
Qed.

(** ** The session store *)

Lemma run_app ops1 ops2 (d : gmap string string) :
  InMemoryStorage.run (ops1 ++ ops2) d
  = let '(d1, outs1) := InMemoryStorage.run ops1 d in
    let '(d2, outs2) := InMemoryStorage.run ops2 d1 in
    (d2, outs1 ++ outs2).
Proof.
  revert d. induction ops1 as [|o ops1 IH]; intros d; simpl.
  - now destruct (InMemoryStorage.run ops2 d).
  - destruct o as [e|e i]; [| apply IH].
    rewrite IH. destruct (InMemoryStorage.run ops1 d) as [d1 outs1].
    now destruct (InMemoryStorage.run ops2 d1).
Qed.

(** Lookups do not change the dictionary. *)
Lemma run_get_only ops (d : gmap string string) :
  forallb (fun o => match o with InMemoryStorage.GetInternalId _ => true | _ => false end) ops
  = true ->
  fst (InMemoryStorage.run ops d) = d.
Proof.
  induction ops as [|o ops IH]; simpl; [reflexivity |].
  destruct o as [e|e i]; [| discriminate].
  intros H. specialize (IH H). now destruct (InMemoryStorage.run ops d).
Qed.

(** Last write wins: after a sequence of calls, the entry of [e] is what the
    last save for [e] recorded, or what it was before if there was none. *)
Lemma run_lookup_last_saved ops (d : gmap string string) e :
  InMemoryStorage.get_internal_id (fst (InMemoryStorage.run ops d)) e
  = match InMemoryStorage.last_saved e ops with
    | Some i => Some i
    | None => InMemoryStorage.get_internal_id d e
    end.
Proof.
  revert d. induction ops as [|o ops IH]; intros d; simpl; [reflexivity |].
  destruct o as [e'|e' i].
  - specialize (IH d). now destruct (InMemoryStorage.run ops d).
  - rewrite IH. destruct (InMemoryStorage.last_saved e ops); [reflexivity |].
    unfold InMemoryStorage.get_internal_id, InMemoryStorage.save_mapping.
    case_bool_decide as Heq.
    + subst. now rewrite lookup_insert_eq.
    + now rewrite lookup_insert_ne.
Qed.

Lemma last_saved_keeps e i ops :
  forallb (InMemoryStorage.keeps e i) ops = true ->
  InMemoryStorage.last_saved e ops = None \/ InMemoryStorage.last_saved e ops = Some i.
Proof.
  induction ops as [|o ops IH]; simpl; [now left |].
  intros H. apply andb_true_iff in H as [Ho Hops].
  destruct o as [e'|e' j]; [now apply IH |].
  destruct (IH Hops) as [-> | ->]; [| now right].
  simpl in Ho. case_bool_decide as Heq; [| now left].
  simpl in Ho. apply bool_decide_eq_true in Ho. subst. now right.
Qed.

(** C2, the claim as written fails: a second [save_mapping] for the same
    external id replaces the first internal id. *)
Lemma save_mapping_overwrites :
  InMemoryStorage.get_internal_id
    (InMemoryStorage.save_mapping
       (InMemoryStorage.save_mapping InMemoryStorage.init "conv" "thread-1")
       "conv" "thread-2")
    "conv"
  <> Some "thread-1".
Proof. vm_compute. discriminate. Qed.

(** C2, amended.  The store keeps at most one internal id per external id,
    and the last write wins: once [save_mapping] has recorded [i] for [e],
    every later lookup of [e] returns [i] as long as no later [save_mapping]
    records another internal id for [e]. *)
Theorem save_mapping_kept_until_rewritten (d : gmap string string) e i ops :
  forallb (InMemoryStorage.keeps e i) ops = true ->
  InMemoryStorage.get_internal_id
    (fst (InMemoryStorage.run ops (InMemoryStorage.save_mapping d e i))) e
  = Some i.
Proof.
  intros H. rewrite run_lookup_last_saved.
  destruct (last_saved_keeps e i ops H) as [-> | ->]; [| reflexivity].
  unfold InMemoryStorage.get_internal_id, InMemoryStorage.save_mapping.
  apply lookup_insert_eq.
Qed.

Lemma save_mapping_kept_until_rewritten_witness :
  let ops := [InMemoryStorage.GetInternalId "conv";
              InMemoryStorage.SaveMapping "other" "thread-2";
              InMemoryStorage.SaveMapping "conv" "thread-1";
              InMemoryStorage.GetInternalId "other"] in
  forallb (InMemoryStorage.keeps "conv" "thread-1") ops = true
  /\ InMemoryStorage.get_internal_id
       (fst (InMemoryStorage.run ops
               (InMemoryStorage.save_mapping InMemoryStorage.init "conv" "thread-1")))
       "conv"
     = Some "thread-1".
Proof.
  split; [reflexivity |].
  apply (save_mapping_kept_until_rewritten InMemoryStorage.init "conv" "thread-1").
  reflexivity.
Defined.

(** ** The relay *)

Lemma bind_returned {A B} (m : Gen A) (k : A -> Gen B) st evs st1 a :
  m st = (evs, st1, Returned a) ->
  bind m k st = (let '(evs2, st2, r) := k a st1 in (evs ++ evs2, st2, r)).
Proof. intros H. unfold bind. now rewrite H. Qed.

Lemma bind_raised {A B} (m : Gen A) (k : A -> Gen B) st evs st1 e :
  m st = (evs, st1, Raised e) ->
  bind m k st = (evs, st1, Raised e).
Proof. intros H. unfold bind. now rewrite H. Qed.

(** A content item only yields frames that are not [error] frames, and
    leaves the store alone. *)
Lemma on_content_run c st :
  exists evs r, on_content c st = (evs, st, r)
                /\ forallb is_data_yield evs = true.
Proof.
  unfold on_content.
  destruct (String.eqb (Content.type c) "usage").
  - destruct (Content.usage_details c) as [d|].
    + eexists _, _. split; [reflexivity |]. reflexivity.
    + eexists _, _. split; reflexivity.
  - eexists _, _. split; reflexivity.
Qed.

Lemma for_each_run {A} (body : A -> Gen unit) (l : list A) st :
  (forall x st, exists evs r, body x st = (evs, st, r)
                              /\ forallb is_data_yield evs = true) ->
  exists evs r, for_each l body st = (evs, st, r)
                /\ forallb is_data_yield evs = true.
Proof.
  intros Hbody. induction l as [|x l IH]; simpl.
  - eexists _, _. split; reflexivity.
  - destruct (Hbody x st) as (evs1 & r1 & H1 & Hq1).
    destruct r1 as [[]|e].
    + rewrite (bind_returned _ _ _ _ _ _ H1).
      destruct IH as (evs2 & r2 & H2 & Hq2). rewrite H2.
      eexists _, _. split; [reflexivity |].
      rewrite forallb_app, Hq1, Hq2. reflexivity.
    + rewrite (bind_raised _ _ _ _ _ _ H1).
      eexists _, _. split; [reflexivity | exact Hq1].
Qed.

Lemma on_chunk_run c st :
  exists evs r, on_chunk c st = (evs, st, r)
                /\ forallb is_data_yield evs = true.
Proof.
  unfold on_chunk. destruct (Py.truthy (Chunk.text c)).
  - eexists _, _. split; reflexivity.
  - apply for_each_run. intros x st'. apply on_content_run.
Qed.

Lemma chunks_run (l : list Chunk.t) st :
  exists evs r, for_each l on_chunk st = (evs, st, r)
                /\ forallb is_data_yield evs = true.
Proof. apply for_each_run. intros x st'. apply on_chunk_run. Qed.

(** The id handed to [get_new_thread]: the stored internal id when it is
    truthy, nothing otherwise (lines 108 to 113). *)
Lemma get_new_thread_branches agent (thread_id : option string) :
  (if Py.truthy_opt thread_id
   then agent_get_new_thread agent thread_id
   else agent_get_new_thread agent None)
  = agent_get_new_thread agent (resume_id thread_id).
Proof. unfold resume_id. now destruct (Py.truthy_opt thread_id). Qed.

(** The thread cannot be obtained: the body raises at once. *)
Lemma try_thread_fails self text cid st e :
  get_new_thread (select_agent self text) (resume_id (st !! cid)) = Raised e ->
  generate_response_try self text cid st
  = ([StoreGet cid;
      GetNewThread (name (select_agent self text)) (resume_id (st !! cid))],
     st, Raised e).
Proof.
  intros Hth. unfold generate_response_try.
  rewrite (bind_returned _ _ st [StoreGet cid] st (st !! cid)) by reflexivity.
  rewrite get_new_thread_branches.
  rewrite (bind_raised _ _ st
             [GetNewThread (name (select_agent self text)) (resume_id (st !! cid))]
             st e); [reflexivity |].
  unfold agent_get_new_thread, bind, emit. rewrite Hth. reflexivity.
Qed.

(** The thread is obtained: the body runs the stream, and saves the mapping
    when the stream ends well, no id was stored and the backend gave one. *)
Lemma try_thread_ok self text cid st th evs r :
  get_new_thread (select_agent self text) (resume_id (st !! cid)) = Returned th ->
  for_each (chunks (run_stream (select_agent self text) (user_input_of text) th))
           on_chunk st = (evs, st, r) ->
  generate_response_try self text cid st
  = let agent := select_agent self text in
    let s := run_stream agent (user_input_of text) th in
    let pre := [StoreGet cid;
                GetNewThread (name agent) (resume_id (st !! cid));
                RunStream (name agent) (user_input_of text) th] in
    match r, failure s with
    | Raised e, _ => (pre ++ evs, st, Raised e)
    | Returned _, Some e => (pre ++ evs, st, Raised e)
    | Returned _, None =>
        match assigned_thread_id s with
        | Some new_id =>
            if negb (Py.truthy_opt (st !! cid)) && Py.truthy new_id
            then (pre ++ evs ++ [StoreSave cid new_id], <[cid := new_id]> st, Returned tt)
            else (pre ++ evs, st, Returned tt)
        | None => (pre ++ evs, st, Returned tt)
        end
    end.
Proof.
  intros Hth Hrun. unfold generate_response_try.
  rewrite (bind_returned _ _ st [StoreGet cid] st (st !! cid)) by reflexivity.
  rewrite get_new_thread_branches.
  rewrite (bind_returned _ _ st
             [GetNewThread (name (select_agent self text)) (resume_id (st !! cid))]
             st th)
    by (unfold agent_get_new_thread, bind, emit; rewrite Hth; reflexivity).
  unfold agent_run_stream.
  set (agent := select_agent self text) in *.
  set (s := run_stream agent (user_input_of text) th) in *.
  unfold bind at 1. unfold bind at 1. unfold emit at 1.
  unfold bind at 1. rewrite Hrun.
  destruct r as [[]|e]; [| reflexivity].
  destruct (failure s) as [e|]; [cbn; now rewrite ?app_nil_r |].
  cbn. destruct (assigned_thread_id s) as [new_id|]; cbn.
  - destruct (negb (Py.truthy_opt (st !! cid)) && Py.truthy new_id); cbn.
    + unfold InMemoryStorage.save_mapping. now rewrite ?app_nil_r.
    + now rewrite ?app_nil_r.
  - now rewrite ?app_nil_r.
Qed.

(** The events of the stream loop: frames of [text] and [usage] events only. *)
Lemma data_yields_frames evs :
  forallb is_data_yield evs = true ->
  List.filter is_error_frame (frames evs) = []
  /\ saves evs = [] /\ backend_calls evs = [].
Proof.
  induction evs as [|ev evs IH]; simpl; [auto |].
  intros H. apply andb_true_iff in H as [Hev Hevs].
  destruct (IH Hevs) as (IH1 & IH2 & IH3).
  destruct ev as [f| | | |]; simpl in Hev; try discriminate.
  unfold frames, saves, backend_calls in *. simpl.
  apply negb_true_iff in Hev. rewrite Hev. auto.
Qed.

Lemma frames_app evs1 evs2 : frames (evs1 ++ evs2) = frames evs1 ++ frames evs2.
Proof. unfold frames. apply omap_app. Qed.

Lemma saves_app evs1 evs2 : saves (evs1 ++ evs2) = saves evs1 ++ saves evs2.
Proof. unfold saves. apply omap_app. Qed.

Lemma backend_calls_app evs1 evs2 :
  backend_calls (evs1 ++ evs2) = backend_calls evs1 ++ backend_calls evs2.
Proof. unfold backend_calls. apply List.filter_app. Qed.

(** The whole of [generate_response], by the behaviour of the backend. *)
Lemma generate_response_run json self text cid st :
  generate_response json self text cid st
  = let agent := select_agent self text in
    let tid := resume_id (st !! cid) in
    match get_new_thread agent tid with
    | Raised e =>
        ([StoreGet cid; GetNewThread (name agent) tid;
          Yield (format_sse (json_dumps_error json e) "error")], st, Returned tt)
    | Returned th =>
        let s := run_stream agent (user_input_of text) th in
        let pre := [StoreGet cid; GetNewThread (name agent) tid;
                    RunStream (name agent) (user_input_of text) th] in
        let '(evs, _, r) := for_each (chunks s) on_chunk st in
        match r, failure s with
        | Raised e, _ | Returned _, Some e =>
            (pre ++ evs ++ [Yield (format_sse (json_dumps_error json e) "error")],
             st, Returned tt)
        | Returned _, None =>
            match assigned_thread_id s with
            | Some new_id =>
                if negb (Py.truthy_opt (st !! cid)) && Py.truthy new_id
                then (pre ++ evs ++ [StoreSave cid new_id], <[cid := new_id]> st,
                      Returned tt)
                else (pre ++ evs, st, Returned tt)
            | None => (pre ++ evs, st, Returned tt)
            end
        end
    end.
Proof.
  unfold generate_response, try_except. cbv zeta.
  destruct (get_new_thread (select_agent self text) (resume_id (st !! cid)))
    as [th|e] eqn:Hth.
  - destruct (chunks_run
                (chunks (run_stream (select_agent self text) (user_input_of text) th)) st)
      as (evs & r & Hrun & _).
    rewrite (try_thread_ok _ _ _ _ _ _ _ Hth Hrun). cbv zeta. rewrite Hrun.
    destruct r as [[]|e].
    + destruct (failure _) as [e|].
      * unfold generate_response_except, yield, emit. now rewrite <- app_assoc.
      * destruct (assigned_thread_id _) as [new_id|]; [| reflexivity].
        now destruct (negb (Py.truthy_opt (st !! cid)) && Py.truthy new_id).
    + unfold generate_response_except, yield, emit. now rewrite <- app_assoc.
  - rewrite (try_thread_fails _ _ _ _ _ Hth). reflexivity.
Qed.

(** The body of the [try] yields no [error] frame; when it raises, it has
    not touched the store. *)
Lemma try_events self text cid st evs st' r :
  generate_response_try self text cid st = (evs, st', r) ->
  List.filter is_error_frame (frames evs) = []
  /\ (forall e, r = Raised e -> st' = st /\ saves evs = []).
Proof.
  destruct (get_new_thread (select_agent self text) (resume_id (st !! cid)))
    as [th|e] eqn:Hth.
  - destruct (chunks_run
                (chunks (run_stream (select_agent self text) (user_input_of text) th)) st)
      as (evs1 & r1 & Hrun & Hq).
    destruct (data_yields_frames evs1 Hq) as (Hf & Hs & _).
    rewrite (try_thread_ok _ _ _ _ _ _ _ Hth Hrun). cbv zeta.
    assert (Hpre : forall pre tl,
               frames pre = [] -> frames tl = frames evs1 ->
               List.filter is_error_frame (frames (pre ++ tl)) = []).
    { intros pre tl Hp Htl. rewrite frames_app, Hp, Htl. exact Hf. }
    destruct r1 as [[]|e].
    + destruct (failure _) as [e|].
      * intros [= <- <- <-]. split; [now apply (Hpre [_; _; _]) |].
        intros e' _. split; [reflexivity |]. exact Hs.
      * destruct (assigned_thread_id _) as [new_id|].
        -- destruct (negb (Py.truthy_opt (st !! cid)) && Py.truthy new_id);
             intros [= <- <- <-]; (split; [| discriminate]).
           ++ apply (Hpre [_; _; _]); [reflexivity |]. rewrite frames_app. apply app_nil_r.
           ++ now apply (Hpre [_; _; _]).
        -- intros [= <- <- <-]. split; [| discriminate]. now apply (Hpre [_; _; _]).
    + intros [= <- <- <-]. split; [now apply (Hpre [_; _; _]) |].
      intros e' _. split; [reflexivity |]. exact Hs.
  - rewrite (try_thread_fails _ _ _ _ _ Hth). intros [= <- <- <-]. auto.
Qed.

(** C3. Whenever response generation fails, that is, whenever the body of
    the [try] raises (the thread cannot be obtained, the backend stream
    breaks, a usage payload is malformed), the relay ends normally, its
    frames contain exactly one [error] frame, that frame is the last one,
    and the store is left as it was: nothing is inserted, whatever thread
    id the backend had assigned. *)
Theorem relay_failure_single_error json self text cid st evs st' e :
  generate_response_try self text cid st = (evs, st', Raised e) ->
  exists out,
    generate_response json self text cid st = (out, st, Returned tt)
    /\ length (List.filter is_error_frame (frames out)) = 1%nat
    /\ last (frames out) = Some (format_sse (json_dumps_error json e) "error")
    /\ is_error_frame (format_sse (json_dumps_error json e) "error") = true
    /\ saves out = [].
Proof.
  intros Htry. destruct (try_events _ _ _ _ _ _ _ Htry) as (Hf & Hr).
  destruct (Hr e eq_refl) as (-> & Hs).
  exists (evs ++ [Yield (format_sse (json_dumps_error json e) "error")]).
  split; [| split; [| split; [| split]]].
  - unfold generate_response, try_except. rewrite Htry. reflexivity.
  - rewrite frames_app, List.filter_app, Hf. reflexivity.
  - rewrite frames_app. apply last_snoc.
  - reflexivity.
  - rewrite saves_app, Hs. reflexivity.
Qed.

Lemma relay_failure_single_error_witness :
  let evs := [StoreGet "conv-1"; GetNewThread "chat" None;
              RunStream "chat" "hello" {| service_thread_id := None |};
              Yield (format_sse_default "Hel")] in
  generate_response_try (scripted_client broken_stream) "hello" "conv-1"
                        InMemoryStorage.init
  = (evs, InMemoryStorage.init, Raised "backend unavailable")
  /\ exists out,
       generate_response json_dumps_plain (scripted_client broken_stream)
                         "hello" "conv-1" InMemoryStorage.init
       = (out, InMemoryStorage.init, Returned tt)
       /\ length (List.filter is_error_frame (frames out)) = 1%nat
       /\ last (frames out)
          = Some (format_sse (json_dumps_error json_dumps_plain "backend unavailable")
                             "error")
       /\ is_error_frame
            (format_sse (json_dumps_error json_dumps_plain "backend unavailable")
                        "error")
          = true
       /\ saves out = [].
Proof.
  intros evs.
  assert (Htry : generate_response_try (scripted_client broken_stream) "hello" "conv-1"
                   InMemoryStorage.init
                 = (evs, InMemoryStorage.init, Raised "backend unavailable"))
    by (vm_compute; reflexivity).
  split; [exact Htry |].
  exact (relay_failure_single_error json_dumps_plain (scripted_client broken_stream)
           "hello" "conv-1" InMemoryStorage.init evs InMemoryStorage.init
           "backend unavailable" Htry).
Defined.

(** The failures of response generation: the stream breaks, or a chunk
    cannot be processed; each makes the body of the [try] raise (for the
    thread that cannot be obtained see [try_thread_fails]). *)
Lemma try_stream_fails self text cid st th e :
  get_new_thread (select_agent self text) (resume_id (st !! cid)) = Returned th ->
  failure (run_stream (select_agent self text) (user_input_of text) th) = Some e ->
  exists evs e', generate_response_try self text cid st = (evs, st, Raised e').
Proof.
  intros Hth Hfail.
  destruct (chunks_run
              (chunks (run_stream (select_agent self text) (user_input_of text) th)) st)
    as (evs & r & Hrun & _).
  rewrite (try_thread_ok _ _ _ _ _ _ _ Hth Hrun). cbv zeta. rewrite Hfail.
  destruct r as [[]|e']; eexists _, _; reflexivity.
Qed.

Lemma try_chunk_fails self text cid st th evs e :
  get_new_thread (select_agent self text) (resume_id (st !! cid)) = Returned th ->
  for_each (chunks (run_stream (select_agent self text) (user_input_of text) th))
           on_chunk st = (evs, st, Raised e) ->
  exists evs', generate_response_try self text cid st = (evs', st, Raised e).
Proof.
  intros Hth Hrun. rewrite (try_thread_ok _ _ _ _ _ _ _ Hth Hrun). cbv zeta.
  eexists. reflexivity.
Qed.

(** A usage item without payload stops the relay: the chunks after it are
    not relayed, and the error frame closes the stream. *)
Example malformed_payload_run :
  frames (fst (fst (generate_response json_dumps_plain (scripted_client malformed_stream)
                      "hello" "conv-1" InMemoryStorage.init)))
  = [format_sse_default "Hel";
     format_sse (json_dumps_error json_dumps_plain
                   "'NoneType' object has no attribute 'get'") "error"]
  /\ snd (fst (generate_response json_dumps_plain (scripted_client malformed_stream)
                 "hello" "conv-1" InMemoryStorage.init))
     = InMemoryStorage.init.
Proof. split; vm_compute; reflexivity. Qed.

(** A turn that ends well: the frames in order, then the insertion. *)
Example good_run :
  generate_response json_dumps_plain (scripted_client good_stream)
                    "hello" "conv-1" InMemoryStorage.init
  = ([StoreGet "conv-1"; GetNewThread "chat" None;
      RunStream "chat" "hello" {| service_thread_id := None |};
      Yield (format_sse_default "Hel"); Yield (format_sse_default "lo");
      Yield (format_sse (model_dump_json
                           {| input_tokens := 0; output_tokens := 0; total_tokens := 5 |})
                        "usage");
      StoreSave "conv-1" "thread-1"],
     <["conv-1" := "thread-1"]> InMemoryStorage.init, Returned tt).
Proof. vm_compute. reflexivity. Qed.

(** An [error] frame among the frames. *)
Lemma error_frame_found json pre evs e :
  List.filter is_error_frame
    (frames (pre ++ evs ++ [Yield (format_sse (json_dumps_error json e) "error")]))
  <> [].
Proof.
  rewrite !frames_app, !List.filter_app.
  change (List.filter is_error_frame
            (frames [Yield (format_sse (json_dumps_error json e) "error")]))
    with [format_sse (json_dumps_error json e) "error"].
  intros H. apply app_eq_nil in H as [_ H]. apply app_eq_nil in H as [_ H].
  discriminate.
Qed.

(** C4, the claim as written fails: a turn can end well without the backend
    naming the thread; then nothing is inserted for the new conversation
    id. *)
Lemma relay_success_without_thread_id :
  let '(out, st', r) :=
    generate_response json_dumps_plain (scripted_client unnamed_stream)
                      "hello" "conv-1" InMemoryStorage.init in
  r = Returned tt
  /\ InMemoryStorage.init !! "conv-1" = None
  /\ List.filter is_error_frame (frames out) = []
  /\ frames out = [format_sse_default "hi"]
  /\ saves out = []
  /\ st' !! "conv-1" = None.
Proof. vm_compute. repeat split; reflexivity. Qed.

(** C4, amended.  For a conversation id without a mapping, a relay call that
    ends without an [error] event asks the backend once for a new thread,
    without an id to resume, and runs the stream on that thread.  When the
    backend named the thread (a truthy id), the call inserts exactly one
    mapping, for that id, as its last step, after every frame; when the
    backend named no thread (no id, or an empty one), the call inserts
    nothing and leaves the store as it was. *)
Theorem relay_new_conversation json self text cid st th out st' r :
  st !! cid = None ->
  get_new_thread (select_agent self text) None = Returned th ->
  generate_response json self text cid st = (out, st', r) ->
  List.filter is_error_frame (frames out) = [] ->
  backend_calls out
  = [GetNewThread (name (select_agent self text)) None;
     RunStream (name (select_agent self text)) (user_input_of text) th]
  /\ match assigned_thread_id
             (run_stream (select_agent self text) (user_input_of text) th) with
     | Some new_id =>
         if Py.truthy new_id
         then st' = <[cid := new_id]> st
              /\ size st' = S (size st)
              /\ saves out = [(cid, new_id)]
              /\ last out = Some (StoreSave cid new_id)
         else st' = st /\ saves out = []
     | None => st' = st /\ saves out = []
     end.
Proof.
  intros Hnone Hth Hrun Hok.
  rewrite generate_response_run in Hrun. cbv zeta in Hrun.
  rewrite Hnone in Hrun. change (resume_id None) with (@None string) in Hrun.
  rewrite Hth in Hrun.
  destruct (chunks_run
              (chunks (run_stream (select_agent self text) (user_input_of text) th)) st)
    as (evs & r1 & Hloop & Hq).
  rewrite Hloop in Hrun.
  destruct (data_yields_frames evs Hq) as (_ & Hs & Hb).
  assert (Hcalls : forall tl, backend_calls tl = [] ->
             backend_calls
               (StoreGet cid
                :: GetNewThread (name (select_agent self text)) None
                :: RunStream (name (select_agent self text)) (user_input_of text) th
                :: evs ++ tl)
             = [GetNewThread (name (select_agent self text)) None;
                RunStream (name (select_agent self text)) (user_input_of text) th]).
  { intros tl Htl.
    change (backend_calls (?a :: ?b :: ?c :: evs ++ tl))
      with (b :: c :: backend_calls (evs ++ tl)).
    now rewrite backend_calls_app, Hb, Htl. }
  assert (Hquiet : (StoreGet cid
                    :: GetNewThread (name (select_agent self text)) None
                    :: RunStream (name (select_agent self text)) (user_input_of text) th
                    :: evs, st, Returned tt) = (out, st', r) ->
             backend_calls out
             = [GetNewThread (name (select_agent self text)) None;
                RunStream (name (select_agent self text)) (user_input_of text) th]
             /\ st' = st /\ saves out = []).
  { intros [= <- <- <-]. split; [| split; [reflexivity | exact Hs]].
    rewrite <- (app_nil_r evs). now apply Hcalls. }
  destruct r1 as [[]|e].
  - destruct (failure _) as [e|].
    + injection Hrun as <- <- <-.
      exfalso. exact (error_frame_found json [_; _; _] _ _ Hok).
    + change (Py.truthy_opt None) with false in Hrun.
      change (negb false) with true in Hrun.
      destruct (assigned_thread_id _) as [new_id|].
      * destruct (Py.truthy new_id) eqn:Htruthy; simpl in Hrun.
        -- injection Hrun as <- <- <-.
           split; [now apply Hcalls |].
           split; [reflexivity |].
           split; [now apply map_size_insert_None |].
           split.
           ++ change (saves (?a :: ?b :: ?c :: evs ++ ?d)) with (saves (evs ++ d)).
              rewrite saves_app, Hs. reflexivity.
           ++ apply (last_snoc _ ([_; _; _] ++ evs)).
        -- destruct (Hquiet Hrun) as (H1 & H2 & H3). auto.
      * destruct (Hquiet Hrun) as (H1 & H2 & H3). auto.
  - injection Hrun as <- <- <-.
    exfalso. exact (error_frame_found json [_; _; _] _ _ Hok).
Qed.

Lemma relay_new_conversation_witness :
  let th := {| service_thread_id := None |} in
  let named := scripted_client good_stream in
  let out := [StoreGet "conv-1"; GetNewThread "chat" None; RunStream "chat" "hello" th;
              Yield (format_sse_default "Hel"); Yield (format_sse_default "lo");
              Yield (format_sse (model_dump_json (usage_of_details partial_usage)) "usage");
              StoreSave "conv-1" "thread-1"] in
  let st' := <["conv-1" := "thread-1"]> InMemoryStorage.init in
  let unnamed := scripted_client unnamed_stream in
  let out0 := [StoreGet "conv-1"; GetNewThread "chat" None; RunStream "chat" "hello" th;
               Yield (format_sse_default "hi")] in
  ((InMemoryStorage.init !! "conv-1" = None
    /\ get_new_thread (select_agent named "hello") None = Returned th
    /\ generate_response json_dumps_plain named "hello" "conv-1" InMemoryStorage.init
       = (out, st', Returned tt)
    /\ List.filter is_error_frame (frames out) = [])
   /\ (backend_calls out
       = [GetNewThread (name (select_agent named "hello")) None;
          RunStream (name (select_agent named "hello")) (user_input_of "hello") th]
       /\ st' = <["conv-1" := "thread-1"]> InMemoryStorage.init
       /\ size st' = S (size InMemoryStorage.init)
       /\ saves out = [("conv-1", "thread-1")]
       /\ last out = Some (StoreSave "conv-1" "thread-1")))
  /\ ((get_new_thread (select_agent unnamed "hello") None = Returned th
       /\ generate_response json_dumps_plain unnamed "hello" "conv-1" InMemoryStorage.init
          = (out0, InMemoryStorage.init, Returned tt)
       /\ List.filter is_error_frame (frames out0) = [])
      /\ (backend_calls out0
          = [GetNewThread (name (select_agent unnamed "hello")) None;
             RunStream (name (select_agent unnamed "hello")) (user_input_of "hello") th]
          /\ InMemoryStorage.init = InMemoryStorage.init
          /\ saves out0 = [])).
Proof.
  intros th named out st' unnamed out0.
  assert (H1 : InMemoryStorage.init !! "conv-1" = None) by reflexivity.
  assert (H2 : get_new_thread (select_agent named "hello") None = Returned th)
    by reflexivity.
  assert (H3 : generate_response json_dumps_plain named "hello" "conv-1"
                 InMemoryStorage.init = (out, st', Returned tt))
    by (vm_compute; reflexivity).
  assert (H4 : List.filter is_error_frame (frames out) = [])
    by (vm_compute; reflexivity).
  assert (H5 : get_new_thread (select_agent unnamed "hello") None = Returned th)
    by reflexivity.
  assert (H6 : generate_response json_dumps_plain unnamed "hello" "conv-1"
                 InMemoryStorage.init = (out0, InMemoryStorage.init, Returned tt))
    by (vm_compute; reflexivity).
  assert (H7 : List.filter is_error_frame (frames out0) = [])
    by (vm_compute; reflexivity).
  split.
  - split; [repeat split; assumption |].
    exact (relay_new_conversation json_dumps_plain named "hello" "conv-1"
             InMemoryStorage.init th out st' (Returned tt) H1 H2 H3 H4).
  - split; [repeat split; assumption |].
    exact (relay_new_conversation json_dumps_plain unnamed "hello" "conv-1"
             InMemoryStorage.init th out0 InMemoryStorage.init (Returned tt)
             H1 H5 H6 H7).
Defined.

(** What a request can do to the store: nothing, or insert a truthy id for
    a conversation id whose stored id was missing or falsy. *)
Lemma generate_response_store json self text cid st :
  let st' := snd (fst (generate_response json self text cid st)) in
  st' = st
  \/ exists new_id, Py.truthy new_id = true
                    /\ Py.truthy_opt (st !! cid) = false
                    /\ st' = <[cid := new_id]> st.
Proof.
  cbv zeta. rewrite generate_response_run. cbv zeta.
  destruct (get_new_thread _ _) as [th|e]; [| now left].
  destruct (for_each _ on_chunk st) as [[evs st1] r].
  destruct r as [[]|e]; [| now left].
  destruct (failure _) as [e|]; [now left |].
  destruct (assigned_thread_id _) as [new_id|]; [| now left].
  destruct (negb (Py.truthy_opt (st !! cid))) eqn:Hneg; simpl; [| now left].
  destruct (Py.truthy new_id) eqn:Htr; [| now left].
  right. exists new_id. apply negb_true_iff in Hneg. auto.
Qed.

(** Every id the service has stored is truthy: line 142 saves no other. *)
Lemma served_truthy st :
  served st -> forall e i, st !! e = Some i -> Py.truthy i = true.
Proof.
  induction 1 as [|json self text cid st Hst IH]; intros e i Hlook.
  - unfold InMemoryStorage.init in Hlook. now rewrite lookup_empty in Hlook.
  - destruct (generate_response_store json self text cid st)
      as [Heq | (new_id & Htr & _ & Heq)]; rewrite Heq in Hlook.
    + eauto.
    + destruct (decide (cid = e)) as [->|Hne].
      * rewrite lookup_insert_eq in Hlook. now injection Hlook as <-.
      * rewrite lookup_insert_ne in Hlook by done. eauto.
Qed.

(** A request never replaces a mapping of the service. *)
Lemma served_mapping_kept json self text cid st e i :
  served st -> st !! e = Some i ->
  snd (fst (generate_response json self text cid st)) !! e = Some i.
Proof.
  intros Hst Hlook.
  destruct (generate_response_store json self text cid st)
    as [Heq | (new_id & _ & Hfalsy & Heq)]; rewrite Heq; [exact Hlook |].
  destruct (decide (cid = e)) as [->|Hne]; [| now rewrite lookup_insert_ne].
  rewrite Hlook in Hfalsy. simpl in Hfalsy.
  rewrite (served_truthy st Hst e i Hlook) in Hfalsy. discriminate.
Qed.

(** C5. For a conversation id with a mapping in the store of the service,
    the relay asks the chosen agent for the thread of the stored internal
    id, runs the stream on the handle it gets, asks for no new thread, and
    leaves the store as it was: it inserts nothing. *)
Theorem relay_existing_conversation json self text cid st tid out st' r :
  served st ->
  st !! cid = Some tid ->
  generate_response json self text cid st = (out, st', r) ->
  st' = st
  /\ saves out = []
  /\ backend_calls out
     = match get_new_thread (select_agent self text) (Some tid) with
       | Returned th =>
           [GetNewThread (name (select_agent self text)) (Some tid);
            RunStream (name (select_agent self text)) (user_input_of text) th]
       | Raised _ =>
           [GetNewThread (name (select_agent self text)) (Some tid)]
       end.
Proof.
  intros Hst Hlook Hrun.
  pose proof (served_truthy st Hst cid tid Hlook) as Htr.
  rewrite generate_response_run in Hrun. cbv zeta in Hrun.
  rewrite Hlook in Hrun.
  assert (Hres : resume_id (Some tid) = Some tid)
    by (unfold resume_id; simpl; now rewrite Htr).
  rewrite Hres in Hrun.
  destruct (get_new_thread (select_agent self text) (Some tid)) as [th|e].
  - destruct (chunks_run
                (chunks (run_stream (select_agent self text) (user_input_of text) th)) st)
      as (evs & r1 & Hloop & Hq).
    rewrite Hloop in Hrun.
    destruct (data_yields_frames evs Hq) as (_ & Hs & Hb).
    assert (Hshape : exists tl, saves tl = [] /\ backend_calls tl = []
              /\ (StoreGet cid
                  :: GetNewThread (name (select_agent self text)) (Some tid)
                  :: RunStream (name (select_agent self text)) (user_input_of text) th
                  :: tl, st, Returned tt) = (out, st', r)).
    { simpl in Hrun. rewrite Htr in Hrun. simpl in Hrun.
      assert (Herr : forall e, saves (evs ++ [Yield (format_sse (json_dumps_error json e) "error")]) = []
                 /\ backend_calls (evs ++ [Yield (format_sse (json_dumps_error json e) "error")]) = []).
      { intros e. rewrite saves_app, backend_calls_app, Hs, Hb. split; reflexivity. }
      destruct r1 as [[]|e].
      - destruct (failure _) as [e|].
        + eexists. split; [apply (Herr e) |]. split; [apply (Herr e) | exact Hrun].
        + exists evs. split; [exact Hs |]. split; [exact Hb |].
          destruct (assigned_thread_id _); exact Hrun.
      - eexists. split; [apply (Herr e) |]. split; [apply (Herr e) | exact Hrun]. }
    destruct Hshape as (tl & Hs' & Hb' & Heq). injection Heq as <- <- <-.
    split; [reflexivity |]. split.
    + exact Hs'.
    + change (backend_calls (?a :: ?b :: ?c :: tl)) with (b :: c :: backend_calls tl).
      now rewrite Hb'.
  - injection Hrun as <- <- <-. auto.
Qed.

(** A raw dictionary holding an empty internal id is outside [served]: the
    relay reads the empty id as missing (line 108) and starts a new thread. *)
Example empty_stored_id_read_as_missing :
  backend_calls
    (fst (fst (generate_response json_dumps_plain (scripted_client good_stream)
                 "hello" "conv-1" (<["conv-1" := EmptyString]> InMemoryStorage.init))))
  = [GetNewThread "chat" None;
     RunStream "chat" "hello" {| service_thread_id := None |}].
Proof. vm_compute. reflexivity. Qed.

Lemma relay_existing_conversation_witness :
  let self := scripted_client good_stream in
  let st := snd (fst (generate_response json_dumps_plain self "hello" "conv-1"
                        InMemoryStorage.init)) in
  let th := {| service_thread_id := Some "thread-1" |} in
  let out := [StoreGet "conv-1"; GetNewThread "chat" (Some "thread-1");
              RunStream "chat" "and then?" th;
              Yield (format_sse_default "Hel"); Yield (format_sse_default "lo");
              Yield (format_sse (model_dump_json (usage_of_details partial_usage)) "usage")] in
  (served st
   /\ st !! "conv-1" = Some "thread-1"
   /\ generate_response json_dumps_plain self "and then?" "conv-1" st
      = (out, st, Returned tt))
  /\ (st = st
      /\ saves out = []
      /\ backend_calls out
         = match get_new_thread (select_agent self "and then?") (Some "thread-1") with
           | Returned th =>
               [GetNewThread (name (select_agent self "and then?")) (Some "thread-1");
                RunStream (name (select_agent self "and then?"))
                          (user_input_of "and then?") th]
           | Raised _ =>
               [GetNewThread (name (select_agent self "and then?")) (Some "thread-1")]
           end).
Proof.
  intros self st th out.
  assert (H1 : served st) by (apply served_request, served_init).
  assert (H2 : st !! "conv-1" = Some "thread-1") by (vm_compute; reflexivity).
  assert (H3 : generate_response json_dumps_plain self "and then?" "conv-1" st
               = (out, st, Returned tt)) by (vm_compute; reflexivity).
  split; [repeat split; assumption |].
  exact (relay_existing_conversation json_dumps_plain self "and then?" "conv-1" st
           "thread-1" out st (Returned tt) H1 H2 H3).
Defined.

(** ** The endpoint *)

(** C6. A request whose [conversationId] is the empty string is answered
    with the [HTTPException] of status 400 and the literal detail message;
    no generator is built, and sending the response makes no backend call,
    yields no frame and leaves the store as it was. *)
Theorem empty_conversation_id_rejected json text aif_client st :
  let payload := {| StreamRequest.text := text;
                    StreamRequest.conversationId := EmptyString |} in
  stream_messages json payload aif_client
  = HTTPException 400 "conversationId cannot be null or empty."
  /\ send (stream_messages json payload aif_client) st = (400, [], st).
Proof. split; reflexivity. Qed.

(** C10. Every [conversationId] that is not the empty string, a blank one
    included, passes the check: the response streams the frames of
    [generate_response] called with the text and that very id, nothing
    trimmed; sent, it has status 200 and the relay starts by looking that id
    up in the store. *)
Theorem non_empty_conversation_id_relayed json payload aif_client :
  StreamRequest.conversationId payload <> EmptyString ->
  stream_messages json payload aif_client
  = StreamingResponse
      (generate_response json aif_client (StreamRequest.text payload)
                         (StreamRequest.conversationId payload))
      "text/event-stream" [("Cache-Control", "no-cache")]
  /\ forall st,
       exists rest st',
         send (stream_messages json payload aif_client) st
         = (200, StoreGet (StreamRequest.conversationId payload) :: rest, st').
Proof.
  intros Hne. unfold stream_messages.
  destruct (StreamRequest.conversationId payload) as [|c s] eqn:Hid; [congruence |].
  simpl. split; [reflexivity |].
  intros st. rewrite generate_response_run. cbv zeta.
  destruct (get_new_thread _ _) as [th|e]; [| eexists _, _; reflexivity].
  destruct (for_each _ on_chunk st) as [[evs st1] r].
  destruct r as [[]|e]; [| eexists _, _; reflexivity].
  destruct (failure _) as [e|]; [eexists _, _; reflexivity |].
  destruct (assigned_thread_id _) as [new_id|]; [| eexists _, _; reflexivity].
  destruct (negb _ && _); eexists _, _; reflexivity.
Qed.

Lemma non_empty_conversation_id_relayed_witness :
  let payload := {| StreamRequest.text := "hello";
                    StreamRequest.conversationId := " " |} in
  let aif_client := scripted_client good_stream in
  StreamRequest.conversationId payload <> EmptyString
  /\ stream_messages json_dumps_plain payload aif_client
     = StreamingResponse
         (generate_response json_dumps_plain aif_client "hello" " ")
         "text/event-stream" [("Cache-Control", "no-cache")]
  /\ forall st,
       exists rest st',
         send (stream_messages json_dumps_plain payload aif_client) st
         = (200, StoreGet " " :: rest, st').
Proof.
  intros payload aif_client.
  assert (H : StreamRequest.conversationId payload <> EmptyString) by discriminate.
  split; [exact H |].
  exact (non_empty_conversation_id_relayed json_dumps_plain payload aif_client H).
Defined.

(** A blank id gets its own mapping, under the blank key. *)
Example blank_conversation_id_run :
  snd (send (stream_messages json_dumps_plain
               {| StreamRequest.text := "hello"; StreamRequest.conversationId := " " |}
               (scripted_client good_stream))
            InMemoryStorage.init)
  = <[" " := "thread-1"]> InMemoryStorage.init.
Proof. vm_compute. reflexivity. Qed.

(** ** Agent variant *)

Lemma startswith_spec p s :
  Py.startswith p s = true <-> exists post, s = p +:+ post.
Proof.
  revert s. induction p as [|a p IH]; intros s; simpl.
  - split; [intros _; now exists s | reflexivity].
  - destruct s as [|b s].
    + split; [discriminate | intros [post H]; discriminate].
    + rewrite andb_true_iff, IH. split.
      * intros [Hab [post ->]]. apply Ascii.eqb_eq in Hab as ->. now exists post.
      * intros [post H]. rewrite append_cons in H. injection H as -> ->.
        split; [apply Ascii.eqb_refl | now exists post].
Qed.

Lemma contains_spec needle hay :
  Py.contains needle hay = true <-> exists pre post, hay = pre +:+ needle +:+ post.
Proof.
  induction hay as [|c hay IH].
  - simpl. rewrite orb_false_r, startswith_spec. split.
    + intros [post H]. now exists EmptyString, post.
    + intros (pre & post & H). destruct pre as [|x pre]; [now exists post |].
      rewrite append_cons in H. discriminate.
  - simpl. rewrite orb_true_iff, startswith_spec, IH. split.
    + intros [[post H] | (pre & post & H)].
      * now exists EmptyString, post.
      * exists (String c pre), post. rewrite append_cons. now f_equal.
    + intros (pre & post & H). destruct pre as [|x pre].
      * left. now exists post.
      * right. rewrite append_cons in H. injection H as -> ->. now exists pre, post.
Qed.

Lemma lower_app a b : Py.lower (a +:+ b) = Py.lower a +:+ Py.lower b.
Proof.
  induction a as [|x a IH]; [reflexivity |].
  rewrite append_cons. simpl. rewrite IH. reflexivity.
Qed.

Lemma lower_split t a b :
  Py.lower t = a +:+ b ->
  exists t1 t2, t = t1 +:+ t2 /\ Py.lower t1 = a /\ Py.lower t2 = b.
Proof.
  revert t. induction a as [|x a IH]; intros t H.
  - exists EmptyString, t. auto.
  - destruct t as [|c t]; [discriminate |].
    rewrite append_cons in H. simpl in H. injection H as Hc Ht.
    destruct (IH t Ht) as (t1 & t2 & -> & H1 & H2).
    exists (String c t1), t2. simpl. rewrite H1, Hc. auto.
Qed.

(** Line 102 decides exactly whether the text mentions the word. *)
Lemma is_calendar_request_spec text :
  is_calendar_request text = true <-> mentions_calendar text.
Proof.
  unfold is_calendar_request, mentions_calendar. rewrite contains_spec. split.
  - intros (pre' & post' & H).
    destruct (lower_split _ _ _ H) as (pre & rest & -> & _ & Hrest).
    destruct (lower_split _ _ _ Hrest) as (mid & post & -> & Hmid & _).
    now exists pre, mid, post.
  - intros (pre & mid & post & -> & Hmid).
    exists (Py.lower pre), (Py.lower post). now rewrite !lower_app, Hmid.
Qed.

(** Every backend call of a request goes to the selected agent, and the
    stream is run on the text of [user_input_of]. *)
Lemma relay_calls_selected_agent json self text cid st :
  Forall (fun ev => match ev with
                    | GetNewThread a _ => a = name (select_agent self text)
                    | RunStream a input _ =>
                        a = name (select_agent self text) /\ input = user_input_of text
                    | _ => True
                    end)
         (backend_calls (fst (fst (generate_response json self text cid st)))).
Proof.
  rewrite generate_response_run. cbv zeta.
  destruct (get_new_thread _ _) as [th|e].
  - destruct (chunks_run
                (chunks (run_stream (select_agent self text) (user_input_of text) th)) st)
      as (evs & r & Hloop & Hq).
    rewrite Hloop. destruct (data_yields_frames evs Hq) as (_ & _ & Hb).
    assert (Hall : forall tl, backend_calls tl = [] ->
              Forall (fun ev => match ev with
                    | GetNewThread a _ => a = name (select_agent self text)
                    | RunStream a input _ =>
                        a = name (select_agent self text) /\ input = user_input_of text
                    | _ => True
                    end)
                (backend_calls
                   ([StoreGet cid;
                     GetNewThread (name (select_agent self text)) (resume_id (st !! cid));
                     RunStream (name (select_agent self text)) (user_input_of text) th]
                    ++ evs ++ tl))).
    { intros tl Htl. rewrite !backend_calls_app, Hb, Htl.
      repeat constructor. }
    assert (Hplain : forall pre : list Event, pre ++ evs = pre ++ evs ++ [])
      by (intros; now rewrite app_nil_r).
    destruct r as [[]|e].
    + destruct (failure _) as [e|]; [now apply Hall |].
      destruct (assigned_thread_id _) as [new_id|].
      * destruct (negb _ && _); [now apply Hall |].
        cbn [fst]. rewrite Hplain. now apply Hall.
      * cbn [fst]. rewrite Hplain. now apply Hall.
    + now apply Hall.
  - repeat constructor.
Qed.

(** C7. The agent variant depends on the request text alone: a text that
    contains the word calendar in any mix of case, anywhere, selects the
    structured-output builder and has the JSON instruction appended; any
    other text selects the conversational agent and is passed as it is; and
    every backend call of the relay goes to the selected agent with that
    text. *)
Theorem agent_variant_selection self text :
  (mentions_calendar text ->
   select_agent self text = builder_agent self
   /\ user_input_of text
      = text +:+ Py.NL +:+ Py.NL +:+ "Return the response in JSON format.")
  /\ (~ mentions_calendar text ->
      select_agent self text = chat_agent self /\ user_input_of text = text)
  /\ forall json cid st,
       Forall (fun ev => match ev with
                         | GetNewThread a _ => a = name (select_agent self text)
                         | RunStream a input _ =>
                             a = name (select_agent self text)
                             /\ input = user_input_of text
                         | _ => True
                         end)
              (backend_calls (fst (fst (generate_response json self text cid st)))).
Proof.
  split; [| split].
  - intros H. apply is_calendar_request_spec in H.
    unfold select_agent, user_input_of. now rewrite H.
  - intros H. unfold select_agent, user_input_of.
    destruct (is_calendar_request text) eqn:Hc; [| auto].
    apply is_calendar_request_spec in Hc. contradiction.
  - intros json cid st. apply relay_calls_selected_agent.
Qed.

Lemma agent_variant_selection_witness :
  let self := scripted_client good_stream in
  mentions_calendar "my Calendarium"
  /\ select_agent self "my Calendarium" = builder_agent self
  /\ user_input_of "my Calendarium"
     = "my Calendarium" +:+ Py.NL +:+ Py.NL +:+ "Return the response in JSON format."
  /\ ~ mentions_calendar "my calender"
  /\ select_agent self "my calender" = chat_agent self
  /\ user_input_of "my calender" = "my calender".
Proof.
  intros self.
  assert (H1 : mentions_calendar "my Calendarium")
    by (exists "my ", "Calendar", "ium"; split; reflexivity).
  assert (H2 : ~ mentions_calendar "my calender")
    by (intros H; apply is_calendar_request_spec in H; discriminate).
  split; [exact H1 |].
  split; [exact (proj1 (proj1 (agent_variant_selection self "my Calendarium") H1)) |].
  split; [exact (proj2 (proj1 (agent_variant_selection self "my Calendarium") H1)) |].
  split; [exact H2 |].
  exact (proj1 (proj2 (agent_variant_selection self "my calender")) H2).
Defined.

(** ** Usage *)

Lemma or_zero_get (d : UsageDetails) key :
  or_zero (dict_get d key (Some 0)) = count_or_default d key.
Proof.
  unfold or_zero, dict_get, count_or_default.
  destruct (d !! key) as [[n|]|]; try reflexivity.
  destruct (Z.eqb_spec n 0); congruence.
Qed.

(** C8. Each of the three counts of the usage record is the integer of the
    payload, and 0 when the field is missing or null; the payload with the
    input missing, the output null and the total 5 gives the record with 0,
    0 and 5, written as the JSON text of the specification. *)
Theorem usage_counts_default_to_zero :
  (forall d : UsageDetails,
     usage_of_details d
     = {| input_tokens := count_or_default d "input_token_count";
          output_tokens := count_or_default d "output_token_count";
          total_tokens := count_or_default d "total_token_count" |})
  /\ (forall (d : UsageDetails) key,
        d !! key = None \/ d !! key = Some None -> count_or_default d key = 0)
  /\ partial_usage !! "input_token_count" = None
  /\ partial_usage !! "output_token_count" = Some None
  /\ partial_usage !! "total_token_count" = Some (Some 5)
  /\ usage_of_details partial_usage
     = {| input_tokens := 0; output_tokens := 0; total_tokens := 5 |}
  /\ model_dump_json (usage_of_details partial_usage)
     = "{" +:+ DQ +:+ "input_tokens" +:+ DQ +:+ ":0," +:+
       DQ +:+ "output_tokens" +:+ DQ +:+ ":0," +:+
       DQ +:+ "total_tokens" +:+ DQ +:+ ":5}".
Proof.
  split; [| split].
  - intros d. unfold usage_of_details. now rewrite !or_zero_get.
  - intros d key [H | H]; unfold count_or_default; now rewrite H.
  - repeat split; vm_compute; reflexivity.
Qed.

Lemma usage_counts_default_to_zero_witness :
  (partial_usage !! "input_token_count" = None
   \/ partial_usage !! "input_token_count" = Some None)
  /\ count_or_default partial_usage "input_token_count" = 0
  /\ (partial_usage !! "output_token_count" = None
      \/ partial_usage !! "output_token_count" = Some None)
  /\ count_or_default partial_usage "output_token_count" = 0.
Proof.
  assert (H1 : partial_usage !! "input_token_count" = None
               \/ partial_usage !! "input_token_count" = Some None)
    by (left; reflexivity).
  assert (H2 : partial_usage !! "output_token_count" = None
               \/ partial_usage !! "output_token_count" = Some None)
    by (right; reflexivity).
  split; [exact H1 |].
  split; [exact (proj1 (proj2 usage_counts_default_to_zero) partial_usage _ H1) |].
  split; [exact H2 |].
  exact (proj1 (proj2 usage_counts_default_to_zero) partial_usage _ H2).
Defined.

(** * Further properties of the code *)

(** ** The wire format *)

Lemma has_char_app c a b :
  Py.has_char c (a +:+ b) = Py.has_char c a || Py.has_char c b.
Proof.
  induction a as [|x a IH]; [reflexivity |].
  rewrite append_cons. simpl. rewrite IH. now rewrite orb_assoc.
Qed.

Lemma length_append a b :
  String.length (a +:+ b) = (String.length a + String.length b)%nat.
Proof.
  induction a as [|x a IH]; [reflexivity |].
  rewrite append_cons. simpl. now rewrite IH.
Qed.

(** A piece without separator, then the separator: the first piece of the
    cut. *)
Lemma split_piece sep l tl :
  Py.has_char sep l = false ->
  Py.split sep (l +:+ String sep tl) = l :: Py.split sep tl.
Proof.
  induction l as [|c l IH]; intros Hc.
  - rewrite append_nil_l. simpl. now rewrite Ascii.eqb_refl.
  - simpl in Hc. apply orb_false_iff in Hc as [Hc1 Hc2].
    rewrite append_cons. simpl. rewrite Hc1. now rewrite (IH Hc2).
Qed.

Lemma split_whole sep s :
  Py.has_char sep s = false -> Py.split sep s = [s].
Proof.
  induction s as [|c s IH]; intros Hc; [reflexivity |].
  simpl in Hc. apply orb_false_iff in Hc as [Hc1 Hc2].
  simpl. rewrite Hc1. now rewrite (IH Hc2).
Qed.

(** The data lines and the closing line feed, cut at the line feeds: the
    [data: ] lines and two empty pieces. *)
Lemma split_data_lines (lines : list string) :
  Forall (fun l => Py.has_char Py.LF l = false) lines ->
  Py.split Py.LF (data_lines lines +:+ Py.NL)
  = map (fun l => "data: " +:+ l) lines ++ [EmptyString; EmptyString].
Proof.
  induction 1 as [|l ls Hl Hls IH]; [reflexivity |].
  change (data_lines (l :: ls)) with ("data: " +:+ l +:+ Py.NL +:+ data_lines ls).
  assert (Heq : ("data: " +:+ l +:+ Py.NL +:+ data_lines ls) +:+ Py.NL
                = ("data: " +:+ l) +:+ String Py.LF (data_lines ls +:+ Py.NL)).
  { rewrite !append_assoc. reflexivity. }
  rewrite Heq, split_piece.
  - rewrite IH. reflexivity.
  - rewrite has_char_app, Hl. reflexivity.
Qed.

(** X1. Read line by line, a frame is its event line, the [data: ] lines of the
    payload and the closing blank line, provided the event name has no line
    feed: no blank line occurs before the end of the frame. *)
Theorem format_sse_lines data event :
  Py.has_char Py.LF event = false ->
  Py.split Py.LF (format_sse data event)
  = ("event: " +:+ event)
      :: map (fun l => "data: " +:+ l) (Py.split Py.LF data)
      ++ [EmptyString; EmptyString].
Proof.
  intros Hev. rewrite format_sse_frame. unfold frame_of_lines.
  assert (Heq : "event: " +:+ event +:+ Py.NL +:+ data_lines (Py.split Py.LF data) +:+ Py.NL
                = ("event: " +:+ event)
                  +:+ String Py.LF (data_lines (Py.split Py.LF data) +:+ Py.NL)).
  { rewrite !append_assoc. reflexivity. }
  rewrite Heq, split_piece.
  - now rewrite split_data_lines by apply split_no_sep.
  - rewrite has_char_app, Hev. reflexivity.
Qed.

Lemma format_sse_lines_witness :
  Py.has_char Py.LF "text" = false
  /\ Py.split Py.LF (format_sse ("a" +:+ Py.NL +:+ Py.NL +:+ "b") "text")
     = ["event: text"; "data: a"; "data: "; "data: b"; EmptyString; EmptyString].
Proof.
  assert (H : Py.has_char Py.LF "text" = false) by reflexivity.
  split; [exact H |].
  exact (format_sse_lines ("a" +:+ Py.NL +:+ Py.NL +:+ "b") "text" H).
Defined.

(** X2. Two payloads framed under the same event name give the same frame only
    if they are the same payload: the payload can be read back from the
    frame. *)
Theorem format_sse_injective data1 data2 event :
  format_sse data1 event = format_sse data2 event -> data1 = data2.
Proof.
  rewrite !format_sse_frame. unfold frame_of_lines. intros H.
  apply (inj (String.app "event: ")) in H.
  apply (inj (String.app event)) in H.
  apply (inj (String.app Py.NL)) in H.
  apply (f_equal (Py.split Py.LF)) in H.
  rewrite !split_data_lines in H by apply split_no_sep.
  apply app_inv_tail in H.
  assert (Hlines : Py.split Py.LF data1 = Py.split Py.LF data2).
  { revert H. generalize (Py.split Py.LF data1), (Py.split Py.LF data2).
    induction l as [|a l IH]; intros [|b l'] H; try discriminate; [reflexivity |].
    simpl in H. injection H as Hab Hrest. f_equal; [exact Hab | now apply IH]. }
  rewrite <- (join_split Py.LF data1), <- (join_split Py.LF data2).
  now rewrite Hlines.
Qed.

Lemma format_sse_injective_witness :
  format_sse "hello" "text" = format_sse "hello" "text" /\ "hello" = "hello".
Proof.
  assert (H : format_sse "hello" "text" = format_sse "hello" "text") by reflexivity.
  split; [exact H |].
  exact (format_sse_injective "hello" "hello" "text" H).
Defined.

(** X3. A payload without line feed is framed with a single [data: ] line. *)
Theorem format_sse_single_line data event :
  Py.has_char Py.LF data = false ->
  format_sse data event
  = "event: " +:+ event +:+ Py.NL +:+ "data: " +:+ data +:+ Py.NL +:+ Py.NL.
Proof.
  intros H. unfold format_sse. rewrite (split_whole _ _ H). reflexivity.
Qed.

Lemma format_sse_single_line_witness :
  Py.has_char Py.LF "hello" = false
  /\ format_sse "hello" "usage"
     = "event: " +:+ "usage" +:+ Py.NL +:+ "data: " +:+ "hello" +:+ Py.NL +:+ Py.NL.
Proof.
  assert (H : Py.has_char Py.LF "hello" = false) by reflexivity.
  split; [exact H |].
  exact (format_sse_single_line "hello" "usage" H).
Defined.

Lemma data_lines_length data :
  String.length (data_lines (Py.split Py.LF data))
  = (String.length data + 6 * Py.count_char Py.LF data + 7)%nat.
Proof.
  induction data as [|c r IH]; [reflexivity |].
  simpl. destruct (Ascii.eqb c Py.LF).
  - change (data_lines (EmptyString :: Py.split Py.LF r))
      with ("data: " +:+ Py.NL +:+ data_lines (Py.split Py.LF r)).
    rewrite !length_append, IH. simpl. lia.
  - pose proof (split_not_nil Py.LF r) as Hnn.
    destruct (Py.split Py.LF r) as [|l ls]; [contradiction |].
    change (data_lines (String c l :: ls))
      with ("data: " +:+ String c l +:+ Py.NL +:+ data_lines ls).
    change (data_lines (l :: ls))
      with ("data: " +:+ l +:+ Py.NL +:+ data_lines ls) in IH.
    rewrite !length_append in *. simpl in *. lia.
Qed.

(** X4. The size of a frame: the payload and the event name, 16 characters of
    framing, and 6 more for every line feed of the payload. *)
Theorem format_sse_length data event :
  String.length (format_sse data event)
  = (String.length event + String.length data
     + 6 * Py.count_char Py.LF data + 16)%nat.
Proof.
  rewrite format_sse_frame. unfold frame_of_lines.
  rewrite !length_append, data_lines_length. simpl. lia.
Qed.

(** ** The store over sequences of calls *)

Lemma last_saved_none e ops :
  e ∉ saved_keys ops -> InMemoryStorage.last_saved e ops = None.
Proof.
  induction ops as [|o ops IH]; [reflexivity |].
  destruct o as [e'|e' i]; simpl; intros Hnot; [now apply IH |].
  unfold saved_keys in Hnot. simpl in Hnot. fold (saved_keys ops) in Hnot.
  apply not_elem_of_cons in Hnot as [Hne Hrest].
  rewrite (IH Hrest). case_bool_decide; congruence.
Qed.

(** X5. A lookup of an external id that no call of the sequence saves returns
    what it returned before the sequence; in a new store, [None]. *)
Theorem store_unsaved_key_unchanged ops (d : gmap string string) e :
  e ∉ saved_keys ops ->
  InMemoryStorage.get_internal_id (fst (InMemoryStorage.run ops d)) e
  = InMemoryStorage.get_internal_id d e.
Proof.
  intros Hnot. rewrite run_lookup_last_saved.
  now rewrite (last_saved_none e ops Hnot).
Qed.

Lemma store_unsaved_key_unchanged_witness :
  let ops := [InMemoryStorage.SaveMapping "a" "1"; InMemoryStorage.GetInternalId "b";
              InMemoryStorage.SaveMapping "c" "3"] in
  ("b" ∉ saved_keys ops)
  /\ InMemoryStorage.get_internal_id (fst (InMemoryStorage.run ops InMemoryStorage.init)) "b"
     = InMemoryStorage.get_internal_id InMemoryStorage.init "b".
Proof.
  intros ops.
  assert (H : "b" ∉ saved_keys ops) by (vm_compute; set_solver).
  split; [exact H |].
  exact (store_unsaved_key_unchanged ops InMemoryStorage.init "b" H).
Defined.

(** X6. The external ids of the store after a sequence of calls are those it
    had and those the sequence saved: no call removes a mapping, and a
    lookup adds none. *)
Theorem store_keys_after_run ops (d : gmap string string) :
  dom (fst (InMemoryStorage.run ops d)) = dom d ∪ list_to_set (saved_keys ops).
Proof.
  revert d. induction ops as [|o ops IH]; intros d.
  - simpl. set_solver.
  - destruct o as [e|e i]; simpl.
    + specialize (IH d). destruct (InMemoryStorage.run ops d) as [d1 outs].
      simpl in *. exact IH.
    + rewrite IH. unfold InMemoryStorage.save_mapping. rewrite dom_insert_L.
      unfold saved_keys. simpl. set_solver.
Qed.

(** X7. The store grows by at most one mapping per save. *)
Theorem store_size_after_run ops (d : gmap string string) :
  (size (fst (InMemoryStorage.run ops d)) <= size d + length (saved_keys ops))%nat.
Proof.
  revert d. induction ops as [|o ops IH]; intros d.
  - simpl. lia.
  - destruct o as [e|e i]; simpl.
    + specialize (IH d). destruct (InMemoryStorage.run ops d) as [d1 outs].
      simpl in *. exact IH.
    + specialize (IH (InMemoryStorage.save_mapping d e i)).
      unfold InMemoryStorage.save_mapping in *.
      pose proof (map_size_insert e i d) as Hsz.
      destruct (d !! e); unfold saved_keys in *; simpl in *; lia.
Qed.

(** ** The relay over all runs *)

(** The frames of the content items of a chunk: a prefix of its usage
    frames, all of them when every item can be processed. *)
Lemma contents_frames (contents : list Content.t) st :
  exists evs r,
    for_each contents on_content st = (evs, st, r)
    /\ frames evs `prefix_of` usage_frames contents
    /\ (forallb content_ok contents = true ->
        r = Returned tt /\ frames evs = usage_frames contents).
Proof.
  induction contents as [|c cs IH].
  - exists [], (Returned tt). repeat split. apply prefix_nil.
  - destruct IH as (evs2 & r2 & Hrun2 & Hpre2 & Hok2).
    unfold usage_frames, content_ok in *. simpl.
    unfold on_content at 1.
    destruct (String.eqb (Content.type c) "usage").
    + destruct (Content.usage_details c) as [d|].
      * erewrite bind_returned by reflexivity. rewrite Hrun2.
        eexists _, _. split; [reflexivity |]. split.
        -- change (frames ([Yield ?f] ++ evs2)) with (f :: frames evs2).
           now apply prefix_cons.
        -- simpl. intros Hok. destruct (Hok2 Hok) as [-> Heq].
           split; [reflexivity |].
           change (frames ([Yield ?f] ++ evs2)) with (f :: frames evs2).
           now rewrite Heq.
      * erewrite bind_raised by reflexivity.
        eexists _, _. split; [reflexivity |]. split; [apply prefix_nil |].
        simpl. discriminate.
    + erewrite bind_returned by reflexivity. rewrite Hrun2.
      eexists _, _. split; [reflexivity |]. split; [exact Hpre2 |].
      simpl. exact Hok2.
Qed.

(** When the content items are all processed, their frames are the usage
    frames of the chunk. *)
Lemma contents_frames_returned (contents : list Content.t) st evs st' :
  for_each contents on_content st = (evs, st', Returned tt) ->
  frames evs = usage_frames contents.
Proof.
  revert evs st'. induction contents as [|c cs IH]; intros evs st' Hrun.
  - injection Hrun as Hevs _. now subst.
  - destruct (contents_frames cs st) as (evs2 & r2 & Hrun2 & _).
    simpl in Hrun. unfold on_content at 1 in Hrun.
    assert (Hcons : usage_frames (c :: cs)
              = match (if String.eqb (Content.type c) "usage" then
                         match Content.usage_details c with
                         | Some d =>
                             Some (format_sse (model_dump_json (usage_of_details d)) "usage")
                         | None => None
                         end
                       else None) with
                | Some f => f :: usage_frames cs
                | None => usage_frames cs
                end) by reflexivity.
    rewrite Hcons. clear Hcons.
    destruct (String.eqb (Content.type c) "usage").
    + destruct (Content.usage_details c) as [d|].
      * erewrite bind_returned in Hrun by reflexivity. rewrite Hrun2 in Hrun.
        injection Hrun as Hevs Hst Hr. subst.
        rewrite <- (IH _ _ Hrun2). reflexivity.
      * erewrite bind_raised in Hrun by reflexivity. discriminate.
    + erewrite bind_returned in Hrun by reflexivity. rewrite Hrun2 in Hrun.
      injection Hrun as Hevs Hst Hr. subst.
      rewrite <- (IH _ _ Hrun2). reflexivity.
Qed.

(** One chunk: its frames are a prefix of what it stands for, and all of
    it when the chunk is processed to its end. *)
Lemma chunk_frames_run (c : Chunk.t) st :
  exists evs r,
    on_chunk c st = (evs, st, r)
    /\ frames evs `prefix_of` chunk_frames c
    /\ (chunk_ok c = true -> r = Returned tt)
    /\ (r = Returned tt -> frames evs = chunk_frames c).
Proof.
  unfold on_chunk, chunk_frames, chunk_ok.
  destruct (Py.truthy (Chunk.text c)).
  - eexists _, _. split; [reflexivity |]. repeat split; reflexivity.
  - destruct (contents_frames (Chunk.contents c) st) as (evs & r & Hrun & Hpre & Hok).
    exists evs, r. split; [exact Hrun |]. split; [exact Hpre |]. split.
    + intros H. now destruct (Hok H).
    + intros ->. now apply (contents_frames_returned _ _ _ _ Hrun).
Qed.

(** The frames of the chunks of a stream: a prefix of what the chunks
    stand for, and all of it when the loop ends normally, which it does when
    every chunk can be processed. *)
Lemma chunks_frames (l : list Chunk.t) st :
  exists evs r,
    for_each l on_chunk st = (evs, st, r)
    /\ frames evs `prefix_of` concat (map chunk_frames l)
    /\ (forallb chunk_ok l = true -> r = Returned tt)
    /\ (r = Returned tt -> frames evs = concat (map chunk_frames l)).
Proof.
  induction l as [|c cs IH].
  - exists [], (Returned tt). repeat split. apply prefix_nil.
  - destruct IH as (evs2 & r2 & Hrun2 & Hpre2 & Hok2 & Hret2).
    destruct (chunk_frames_run c st) as (evs1 & r1 & Hrun1 & Hpre1 & Hok1 & Hret1).
    simpl. destruct r1 as [[]|e].
    + rewrite (bind_returned _ _ _ _ _ _ Hrun1), Hrun2.
      eexists _, _. split; [reflexivity |].
      rewrite frames_app, (Hret1 eq_refl). split; [| split].
      * now apply prefix_app.
      * intros Hok. apply andb_true_iff in Hok as [_ Hcs]. now apply Hok2.
      * intros Hr. now rewrite (Hret2 Hr).
    + rewrite (bind_raised _ _ _ _ _ _ Hrun1).
      eexists _, _. split; [reflexivity |]. split; [| split].
      * now apply prefix_app_r.
      * intros Hok. apply andb_true_iff in Hok as [Hc _].
        specialize (Hok1 Hc). discriminate.
      * discriminate.
Qed.

(** Case analysis on a run of the relay, once the loop over the chunks is
    known. *)
Ltac relay_cases :=
  repeat match goal with
         | |- context [match ?r with Returned _ => _ | Raised _ => _ end] =>
             destruct r as [[]|?]
         | |- context [match failure ?s with Some _ => _ | None => _ end] =>
             destruct (failure s) as [?|]
         | |- context [match assigned_thread_id ?s with Some _ => _ | None => _ end] =>
             destruct (assigned_thread_id s) as [?|]
         | |- context [if negb ?a && ?b then _ else _] =>
             destruct (negb a && b) eqn:?
         end.

(** X9. A run whose [try] body ends without raising yields no [error]
    frame: the relay gives back exactly the events of the body, and none of
    its frames is an [error] frame. *)
Theorem relay_success_no_error_frame json self text cid st evs st' :
  generate_response_try self text cid st = (evs, st', Returned tt) ->
  generate_response json self text cid st = (evs, st', Returned tt)
  /\ List.filter is_error_frame (frames evs) = [].
Proof.
  intros Htry. split.
  - unfold generate_response, try_except. now rewrite Htry.
  - now destruct (try_events _ _ _ _ _ _ _ Htry).
Qed.

Lemma relay_success_no_error_frame_witness :
  let self := scripted_client good_stream in
  let evs := [StoreGet "conv-1"; GetNewThread "chat" None;
              RunStream "chat" "hello" {| service_thread_id := None |};
              Yield (format_sse_default "Hel"); Yield (format_sse_default "lo");
              Yield (format_sse (model_dump_json (usage_of_details partial_usage)) "usage");
              StoreSave "conv-1" "thread-1"] in
  let st' := <["conv-1" := "thread-1"]> InMemoryStorage.init in
  generate_response_try self "hello" "conv-1" InMemoryStorage.init
  = (evs, st', Returned tt)
  /\ generate_response json_dumps_plain self "hello" "conv-1" InMemoryStorage.init
     = (evs, st', Returned tt)
  /\ List.filter is_error_frame (frames evs) = [].
Proof.
  intros self evs st'.
  assert (H : generate_response_try self "hello" "conv-1" InMemoryStorage.init
              = (evs, st', Returned tt)) by (vm_compute; reflexivity).
  split; [exact H |].
  exact (relay_success_no_error_frame json_dumps_plain self "hello" "conv-1"
           InMemoryStorage.init evs st' H).
Defined.

(** X10. A request leaves the mappings of all other conversation ids alone. *)
Theorem relay_other_ids_untouched json self text cid st e :
  e <> cid ->
  snd (fst (generate_response json self text cid st)) !! e = st !! e.
Proof.
  intros Hne.
  destruct (generate_response_store json self text cid st)
    as [-> | (new_id & _ & _ & ->)]; [reflexivity |].
  now rewrite lookup_insert_ne.
Qed.

Lemma relay_other_ids_untouched_witness :
  "conv-2" <> "conv-1"
  /\ snd (fst (generate_response json_dumps_plain (scripted_client good_stream)
                 "hello" "conv-1" (<["conv-2" := "thread-7"]> InMemoryStorage.init)))
     !! "conv-2"
     = (<["conv-2" := "thread-7"]> InMemoryStorage.init) !! "conv-2".
Proof.
  assert (H : "conv-2" <> "conv-1") by discriminate.
  split; [exact H |].
  exact (relay_other_ids_untouched json_dumps_plain (scripted_client good_stream)
           "hello" "conv-1" (<["conv-2" := "thread-7"]> InMemoryStorage.init)
           "conv-2" H).
Defined.

(** X11. Every run starts by looking the conversation id up and asking the
    selected agent for a thread, once each; it calls the backend at most
    twice and saves at most one mapping. *)
Theorem relay_call_budget json self text cid st :
  exists rest,
    fst (fst (generate_response json self text cid st))
    = StoreGet cid
        :: GetNewThread (name (select_agent self text)) (resume_id (st !! cid))
        :: rest
    /\ Forall (fun ev => match ev with
                         | StoreGet _ | GetNewThread _ _ => False
                         | _ => True
                         end) rest
    /\ (length (backend_calls (fst (fst (generate_response json self text cid st))))
        <= 2)%nat
    /\ (length (saves (fst (fst (generate_response json self text cid st)))) <= 1)%nat.
Proof.
  rewrite generate_response_run. cbv zeta.
  destruct (get_new_thread _ _) as [th|e].
  - destruct (chunks_run
                (chunks (run_stream (select_agent self text) (user_input_of text) th)) st)
      as (evs & r & Hloop & Hq).
    rewrite Hloop. destruct (data_yields_frames evs Hq) as (_ & Hs & Hb).
    assert (Hevs : Forall (fun ev => match ev with
                         | StoreGet _ | GetNewThread _ _ => False
                         | _ => True
                         end) evs).
    { clear -Hq. induction evs as [|ev evs IH]; [constructor |].
      simpl in Hq. apply andb_true_iff in Hq as [Hev Hq].
      constructor; [| now apply IH]. now destruct ev. }
    assert (Hshape : forall tl,
               Forall (fun ev => match ev with
                                 | StoreGet _ | GetNewThread _ _ => False
                                 | _ => True
                                 end) tl ->
               backend_calls tl = [] -> (length (saves tl) <= 1)%nat ->
               exists rest,
                 [StoreGet cid;
                  GetNewThread (name (select_agent self text)) (resume_id (st !! cid));
                  RunStream (name (select_agent self text)) (user_input_of text) th]
                 ++ evs ++ tl
                 = StoreGet cid
                     :: GetNewThread (name (select_agent self text)) (resume_id (st !! cid))
                     :: rest
                 /\ Forall (fun ev => match ev with
                                      | StoreGet _ | GetNewThread _ _ => False
                                      | _ => True
                                      end) rest
                 /\ (length (backend_calls
                       ([StoreGet cid;
                         GetNewThread (name (select_agent self text)) (resume_id (st !! cid));
                         RunStream (name (select_agent self text)) (user_input_of text) th]
                        ++ evs ++ tl)) <= 2)%nat
                 /\ (length (saves
                       ([StoreGet cid;
                         GetNewThread (name (select_agent self text)) (resume_id (st !! cid));
                         RunStream (name (select_agent self text)) (user_input_of text) th]
                        ++ evs ++ tl)) <= 1)%nat).
    { intros tl Htl Hbtl Hstl. eexists. split; [reflexivity |]. split; [| split].
      - constructor; [exact I |]. apply Forall_app. now split.
      - rewrite !backend_calls_app, Hb, Hbtl. simpl. lia.
      - rewrite !saves_app, Hs. simpl. exact Hstl. }
    assert (Hplain : forall pre : list Event, pre ++ evs = pre ++ evs ++ [])
      by (intros; now rewrite app_nil_r).
    relay_cases; cbn [fst]; rewrite ?Hplain; apply Hshape;
      (repeat constructor) || reflexivity || (simpl; lia).
  - eexists. split; [reflexivity |]. repeat constructor.
Qed.

(** X12. When the thread is obtained and every chunk can be processed, the
    frames are exactly what the chunks stand for, chunk by chunk in the
    order of the stream (the text of a chunk that has one, else its usage
    items), followed by the error frame if the stream breaks at its end. *)
Theorem relay_frames_in_order json self text cid st th :
  get_new_thread (select_agent self text) (resume_id (st !! cid)) = Returned th ->
  forallb chunk_ok
    (chunks (run_stream (select_agent self text) (user_input_of text) th)) = true ->
  frames (fst (fst (generate_response json self text cid st)))
  = concat (map chunk_frames
              (chunks (run_stream (select_agent self text) (user_input_of text) th)))
    ++ match failure (run_stream (select_agent self text) (user_input_of text) th) with
       | Some e => [format_sse (json_dumps_error json e) "error"]
       | None => []
       end.
Proof.
  intros Hth Hok. rewrite generate_response_run. cbv zeta. rewrite Hth.
  destruct (chunks_frames
              (chunks (run_stream (select_agent self text) (user_input_of text) th)) st)
    as (evs & r & Hloop & _ & Hret & Hall).
  rewrite Hloop. specialize (Hret Hok). subst r. specialize (Hall eq_refl).
  assert (Hpre : forall tl,
             frames ([StoreGet cid;
                      GetNewThread (name (select_agent self text)) (resume_id (st !! cid));
                      RunStream (name (select_agent self text)) (user_input_of text) th]
                     ++ evs ++ tl)
             = frames evs ++ frames tl).
  { intros tl. now rewrite !frames_app. }
  assert (Hplain : forall pre : list Event, pre ++ evs = pre ++ evs ++ [])
    by (intros; now rewrite app_nil_r).
  relay_cases; cbn [fst]; rewrite ?Hplain, Hpre, Hall; reflexivity.
Qed.

Lemma relay_frames_in_order_witness :
  let self := scripted_client good_stream in
  let th := {| service_thread_id := None |} in
  (get_new_thread (select_agent self "hello") (resume_id (InMemoryStorage.init !! "conv-1"))
   = Returned th
   /\ forallb chunk_ok
        (chunks (run_stream (select_agent self "hello") (user_input_of "hello") th)) = true)
  /\ frames (fst (fst (generate_response json_dumps_plain self "hello" "conv-1"
                         InMemoryStorage.init)))
     = concat (map chunk_frames
                 (chunks (run_stream (select_agent self "hello") (user_input_of "hello") th)))
       ++ match failure (run_stream (select_agent self "hello") (user_input_of "hello") th)
          with
          | Some e => [format_sse (json_dumps_error json_dumps_plain e) "error"]
          | None => []
          end.
Proof.
  intros self th.
  assert (H1 : get_new_thread (select_agent self "hello")
                 (resume_id (InMemoryStorage.init !! "conv-1")) = Returned th)
    by reflexivity.
  assert (H2 : forallb chunk_ok
                 (chunks (run_stream (select_agent self "hello") (user_input_of "hello") th))
               = true) by reflexivity.
  split; [split; assumption |].
  exact (relay_frames_in_order json_dumps_plain self "hello" "conv-1"
           InMemoryStorage.init th H1 H2).
Defined.

(** X13. In every run the frames are a first part of what the chunks of the
    stream stand for, then at most one error frame: the relay never invents
    a frame, never reorders frames, and relays nothing after a failure. *)
Theorem relay_frames_prefix json self text cid st :
  match get_new_thread (select_agent self text) (resume_id (st !! cid)) with
  | Raised e =>
      frames (fst (fst (generate_response json self text cid st)))
      = [format_sse (json_dumps_error json e) "error"]
  | Returned th =>
      exists relayed tail,
        frames (fst (fst (generate_response json self text cid st))) = relayed ++ tail
        /\ relayed `prefix_of`
             concat (map chunk_frames
                       (chunks (run_stream (select_agent self text) (user_input_of text) th)))
        /\ (tail = [] \/ exists e, tail = [format_sse (json_dumps_error json e) "error"])
  end.
Proof.
  rewrite generate_response_run. cbv zeta.
  destruct (get_new_thread _ _) as [th|e]; [| reflexivity].
  destruct (chunks_frames
              (chunks (run_stream (select_agent self text) (user_input_of text) th)) st)
    as (evs & r & Hloop & Hpre & _ & _).
  rewrite Hloop.
  assert (Hfr : forall tl,
             frames ([StoreGet cid;
                      GetNewThread (name (select_agent self text)) (resume_id (st !! cid));
                      RunStream (name (select_agent self text)) (user_input_of text) th]
                     ++ evs ++ tl)
             = frames evs ++ frames tl).
  { intros tl. now rewrite !frames_app. }
  assert (Hplain : forall pre : list Event, pre ++ evs = pre ++ evs ++ [])
    by (intros; now rewrite app_nil_r).
  exists (frames evs).
  relay_cases; cbn [fst]; rewrite ?Hplain, Hfr; eexists;
    (split; [reflexivity |]); (split; [exact Hpre |]);
    solve [now left | right; eexists; reflexivity].
Qed.

(** X14. When the thread cannot be obtained, the stream is never run: the only
    frame is the error frame, and the store is left as it was. *)
Theorem relay_thread_failure json self text cid st e :
  get_new_thread (select_agent self text) (resume_id (st !! cid)) = Raised e ->
  generate_response json self text cid st
  = ([StoreGet cid;
      GetNewThread (name (select_agent self text)) (resume_id (st !! cid));
      Yield (format_sse (json_dumps_error json e) "error")],
     st, Returned tt).
Proof. intros H. rewrite generate_response_run. cbv zeta. now rewrite H. Qed.

Lemma relay_thread_failure_witness :
  let offline := {| name := "chat";
                    get_new_thread := fun _ => Raised "offline";
                    run_stream := fun _ _ => good_stream |} in
  let self := {| chat_agent := offline; builder_agent := offline |} in
  get_new_thread (select_agent self "hello") (resume_id (InMemoryStorage.init !! "conv-1"))
  = Raised "offline"
  /\ generate_response json_dumps_plain self "hello" "conv-1" InMemoryStorage.init
     = ([StoreGet "conv-1";
         GetNewThread (name (select_agent self "hello"))
                      (resume_id (InMemoryStorage.init !! "conv-1"));
         Yield (format_sse (json_dumps_error json_dumps_plain "offline") "error")],
        InMemoryStorage.init, Returned tt).
Proof.
  intros offline self.
  assert (H : get_new_thread (select_agent self "hello")
                (resume_id (InMemoryStorage.init !! "conv-1")) = Raised "offline")
    by reflexivity.
  split; [exact H |].
  exact (relay_thread_failure json_dumps_plain self "hello" "conv-1"
           InMemoryStorage.init "offline" H).
Defined.

(** X15. Every frame the relay yields, in every run, is a frame of one of the
    three events [text], [usage] and [error]. *)
Theorem relay_frames_well_formed json self text cid st :
  Forall is_sse_frame (frames (fst (fst (generate_response json self text cid st)))).
Proof.
  assert (Hcontent : forall c st0, exists evs st1 r,
             on_content c st0 = (evs, st1, r) /\ Forall is_sse_frame (frames evs)).
  { intros c st0. unfold on_content.
    destruct (String.eqb (Content.type c) "usage");
      [destruct (Content.usage_details c) as [d|] |];
      eexists _, _, _; (split; [reflexivity |]); repeat constructor.
    eexists _, "usage". split; [auto | reflexivity]. }
  assert (Hloop : forall A (body : A -> Gen unit),
             (forall x st0, exists evs st1 r,
                 body x st0 = (evs, st1, r) /\ Forall is_sse_frame (frames evs)) ->
             forall l st0, exists evs st1 r,
                 for_each l body st0 = (evs, st1, r) /\ Forall is_sse_frame (frames evs)).
  { intros A body Hbody l. induction l as [|x l IH]; intros st0.
    - eexists _, _, _. split; [reflexivity | constructor].
    - destruct (Hbody x st0) as (evs1 & st1 & r1 & H1 & Hf1). simpl.
      destruct r1 as [[]|e].
      + rewrite (bind_returned _ _ _ _ _ _ H1).
        destruct (IH st1) as (evs2 & st2 & r2 & H2 & Hf2). rewrite H2.
        eexists _, _, _. split; [reflexivity |].
        rewrite frames_app. apply Forall_app. now split.
      + rewrite (bind_raised _ _ _ _ _ _ H1).
        eexists _, _, _. split; [reflexivity | exact Hf1]. }
  assert (Hchunk : forall c st0, exists evs st1 r,
             on_chunk c st0 = (evs, st1, r) /\ Forall is_sse_frame (frames evs)).
  { intros c st0. unfold on_chunk. destruct (Py.truthy (Chunk.text c)).
    - eexists _, _, _. split; [reflexivity |]. repeat constructor.
      eexists _, "text". split; [auto | reflexivity].
    - apply Hloop. exact Hcontent. }
  assert (Herr : forall e, is_sse_frame (format_sse (json_dumps_error json e) "error")).
  { intros e. eexists _, "error". split; [auto | reflexivity]. }
  rewrite generate_response_run. cbv zeta.
  destruct (get_new_thread _ _) as [th|e].
  - destruct (Hloop _ on_chunk Hchunk
                (chunks (run_stream (select_agent self text) (user_input_of text) th)) st)
      as (evs & st1 & r & Hrun & Hf).
    rewrite Hrun.
    assert (Hfr : forall tl,
               Forall is_sse_frame (frames tl) ->
               Forall is_sse_frame
                 (frames ([StoreGet cid;
                           GetNewThread (name (select_agent self text)) (resume_id (st !! cid));
                           RunStream (name (select_agent self text)) (user_input_of text) th]
                          ++ evs ++ tl))).
    { intros tl Htl. rewrite !frames_app. apply Forall_app. split; [constructor |].
      apply Forall_app. now split. }
    assert (Hplain : forall pre : list Event, pre ++ evs = pre ++ evs ++ [])
      by (intros; now rewrite app_nil_r).
    relay_cases; cbn [fst]; rewrite ?Hplain; apply Hfr; repeat constructor; apply Herr.
  - repeat constructor. apply Herr.
Qed.

(** Resuming: a truthy stored id is handed to the agent, and the store is
    left as it was. *)
Lemma relay_resume json self text cid st tid out st' r :
  st !! cid = Some tid -> Py.truthy tid = true ->
  generate_response json self text cid st = (out, st', r) ->
  st' = st
  /\ saves out = []
  /\ exists rest,
       backend_calls out
       = GetNewThread (name (select_agent self text)) (Some tid) :: rest.
Proof.
  intros Hlook Htr Hrun.
  rewrite generate_response_run in Hrun. cbv zeta in Hrun.
  rewrite Hlook in Hrun.
  assert (Hres : resume_id (Some tid) = Some tid)
    by (unfold resume_id; simpl; now rewrite Htr).
  rewrite Hres in Hrun.
  destruct (get_new_thread (select_agent self text) (Some tid)) as [th|e].
  - destruct (chunks_run
                (chunks (run_stream (select_agent self text) (user_input_of text) th)) st)
      as (evs & r1 & Hloop & Hq).
    rewrite Hloop in Hrun.
    destruct (data_yields_frames evs Hq) as (_ & Hs & Hb).
    assert (Hshape : exists tl, saves tl = []
              /\ (StoreGet cid
                  :: GetNewThread (name (select_agent self text)) (Some tid)
                  :: RunStream (name (select_agent self text)) (user_input_of text) th
                  :: tl, st, Returned tt) = (out, st', r)).
    { simpl in Hrun. rewrite Htr in Hrun. simpl in Hrun.
      assert (Herr : forall e,
                 saves (evs ++ [Yield (format_sse (json_dumps_error json e) "error")]) = []).
      { intros e. rewrite saves_app, Hs. reflexivity. }
      destruct r1 as [[]|e].
      - destruct (failure _) as [e|].
        + eexists. split; [apply (Herr e) | exact Hrun].
        + exists evs. split; [exact Hs |].
          destruct (assigned_thread_id _); exact Hrun.
      - eexists. split; [apply (Herr e) | exact Hrun]. }
    destruct Hshape as (tl & Hs' & Heq). injection Heq as <- <- <-.
    split; [reflexivity |]. split; [exact Hs' |].
    eexists. reflexivity.
  - injection Hrun as <- <- <-. split; [reflexivity |]. split; [reflexivity |].
    eexists. reflexivity.
Qed.

(** A first turn that goes well: the mapping is saved, once. *)
Lemma relay_first_turn json self text cid st th new_id :
  st !! cid = None ->
  get_new_thread (select_agent self text) None = Returned th ->
  forallb chunk_ok
    (chunks (run_stream (select_agent self text) (user_input_of text) th)) = true ->
  failure (run_stream (select_agent self text) (user_input_of text) th) = None ->
  assigned_thread_id (run_stream (select_agent self text) (user_input_of text) th)
  = Some new_id ->
  Py.truthy new_id = true ->
  exists out,
    generate_response json self text cid st = (out, <[cid := new_id]> st, Returned tt)
    /\ saves out = [(cid, new_id)].
Proof.
  intros Hnone Hth Hok Hfail Hid Htr.
  rewrite generate_response_run. cbv zeta.
  rewrite Hnone. change (resume_id None) with (@None string).
  rewrite Hth, Hfail, Hid.
  destruct (chunks_frames
              (chunks (run_stream (select_agent self text) (user_input_of text) th)) st)
    as (evs & r & Hloop & _ & Hret & _).
  destruct (chunks_run
              (chunks (run_stream (select_agent self text) (user_input_of text) th)) st)
    as (evs' & r' & Hloop' & Hq).
  rewrite Hloop in Hloop'. injection Hloop' as <- <-.
  destruct (data_yields_frames evs Hq) as (_ & Hs & _).
  rewrite Hloop, (Hret Hok). simpl. rewrite Htr.
  eexists. split; [reflexivity |].
  change (saves (?a :: ?b :: ?c :: evs ++ ?d)) with (saves (evs ++ d)).
  now rewrite saves_app, Hs.
Qed.

(** X16. Two turns of one conversation: when the first turn of a new
    conversation goes well and the backend names the thread, the second
    turn resumes that thread, and over both turns the mapping is saved
    exactly once. *)
Theorem relay_second_turn_resumes json self text1 text2 cid st th new_id :
  st !! cid = None ->
  get_new_thread (select_agent self text1) None = Returned th ->
  forallb chunk_ok
    (chunks (run_stream (select_agent self text1) (user_input_of text1) th)) = true ->
  failure (run_stream (select_agent self text1) (user_input_of text1) th) = None ->
  assigned_thread_id (run_stream (select_agent self text1) (user_input_of text1) th)
  = Some new_id ->
  Py.truthy new_id = true ->
  snd (serve_all json self [(text1, cid); (text2, cid)] st) = <[cid := new_id]> st
  /\ saves (fst (serve_all json self [(text1, cid); (text2, cid)] st)) = [(cid, new_id)]
  /\ GetNewThread (name (select_agent self text2)) (Some new_id)
     ∈ fst (serve_all json self [(text1, cid); (text2, cid)] st).
Proof.
  intros Hnone Hth Hok Hfail Hid Htr.
  destruct (relay_first_turn json self text1 cid st th new_id Hnone Hth Hok Hfail Hid Htr)
    as (out1 & Hrun1 & Hs1).
  simpl. rewrite Hrun1.
  destruct (generate_response json self text2 cid (<[cid := new_id]> st))
    as [[out2 st2] r2] eqn:Hrun2.
  destruct (relay_resume json self text2 cid (<[cid := new_id]> st) new_id out2 st2 r2
              (lookup_insert_eq _ _ _) Htr Hrun2) as (-> & Hs2 & rest & Hcalls).
  simpl. rewrite app_nil_r, saves_app, Hs1, Hs2.
  split; [reflexivity |]. split; [reflexivity |].
  apply elem_of_app. right.
  assert (Hin : GetNewThread (name (select_agent self text2)) (Some new_id)
                ∈ backend_calls out2) by (rewrite Hcalls; left).
  unfold backend_calls in Hin. apply list_elem_of_In in Hin.
  apply List.filter_In in Hin as [Hin _]. now apply list_elem_of_In.
Qed.

Lemma relay_second_turn_resumes_witness :
  let self := scripted_client good_stream in
  let th := {| service_thread_id := None |} in
  let st := InMemoryStorage.init in
  (st !! "conv-1" = None
   /\ get_new_thread (select_agent self "hello") None = Returned th
   /\ forallb chunk_ok
        (chunks (run_stream (select_agent self "hello") (user_input_of "hello") th)) = true
   /\ failure (run_stream (select_agent self "hello") (user_input_of "hello") th) = None
   /\ assigned_thread_id (run_stream (select_agent self "hello") (user_input_of "hello") th)
      = Some "thread-1"
   /\ Py.truthy "thread-1" = true)
  /\ (snd (serve_all json_dumps_plain self [("hello", "conv-1"); ("my calendar", "conv-1")] st)
      = <["conv-1" := "thread-1"]> st
      /\ saves (fst (serve_all json_dumps_plain self
                       [("hello", "conv-1"); ("my calendar", "conv-1")] st))
         = [("conv-1", "thread-1")]
      /\ GetNewThread (name (select_agent self "my calendar")) (Some "thread-1")
         ∈ fst (serve_all json_dumps_plain self
                  [("hello", "conv-1"); ("my calendar", "conv-1")] st)).
Proof.
  intros self th st.
  assert (H1 : st !! "conv-1" = None) by reflexivity.
  assert (H2 : get_new_thread (select_agent self "hello") None = Returned th)
    by reflexivity.
  assert (H3 : forallb chunk_ok
                 (chunks (run_stream (select_agent self "hello") (user_input_of "hello") th))
               = true) by reflexivity.
  assert (H4 : failure (run_stream (select_agent self "hello") (user_input_of "hello") th)
               = None) by reflexivity.
  assert (H5 : assigned_thread_id
                 (run_stream (select_agent self "hello") (user_input_of "hello") th)
               = Some "thread-1") by reflexivity.
  assert (H6 : Py.truthy "thread-1" = true) by reflexivity.
  split; [repeat split; assumption |].
  exact (relay_second_turn_resumes json_dumps_plain self "hello" "my calendar" "conv-1"
           st th "thread-1" H1 H2 H3 H4 H5 H6).
Defined.

Lemma served_serve_all json self requests st :
  served st -> served (snd (serve_all json self requests st)).
Proof.
  revert st. induction requests as [|[text cid] rest IH]; intros st Hst; [exact Hst |].
  simpl.
  pose proof (served_request json self text cid st Hst) as Hnext.
  destruct (generate_response json self text cid st) as [[evs st1] r]. simpl in Hnext.
  specialize (IH st1 Hnext).
  destruct (serve_all json self rest st1) as [evs2 st2]. exact IH.
Qed.

(** X17. When requests are served one after the other, each run to its end
    before the next one starts, a mapping of the service is never replaced,
    whatever requests follow, for whatever conversation ids.  (Requests in
    flight at the same time are outside this statement.) *)
Theorem mapping_kept_across_requests json self requests st e i :
  served st ->
  st !! e = Some i ->
  snd (serve_all json self requests st) !! e = Some i.
Proof.
  revert st. induction requests as [|[text cid] rest IH]; intros st Hst Hlook;
    [exact Hlook |].
  simpl.
  pose proof (served_request json self text cid st Hst) as Hnext.
  pose proof (served_mapping_kept json self text cid st e i Hst Hlook) as Hkept.
  destruct (generate_response json self text cid st) as [[evs st1] r].
  simpl in Hnext, Hkept.
  specialize (IH st1 Hnext Hkept).
  destruct (serve_all json self rest st1) as [evs2 st2]. exact IH.
Qed.

Lemma mapping_kept_across_requests_witness :
  let self := scripted_client good_stream in
  let st := snd (fst (generate_response json_dumps_plain self "hello" "conv-1"
                        InMemoryStorage.init)) in
  let requests := [("more", "conv-1"); ("hi", "conv-2"); ("my calendar", "conv-1")] in
  (served st /\ st !! "conv-1" = Some "thread-1")
  /\ snd (serve_all json_dumps_plain self requests st) !! "conv-1" = Some "thread-1".
Proof.
  intros self st requests.
  assert (H1 : served st) by (apply served_request, served_init).
  assert (H2 : st !! "conv-1" = Some "thread-1") by (vm_compute; reflexivity).
  split; [split; assumption |].
  exact (mapping_kept_across_requests json_dumps_plain self requests st "conv-1"
           "thread-1" H1 H2).
Defined.

(** ** The tool *)

Lemma contains_lower_spec word text :
  Py.contains word (Py.lower text) = true <-> mentions word text.
Proof.
  unfold mentions. rewrite contains_spec. split.
  - intros (pre' & post' & H).
    destruct (lower_split _ _ _ H) as (pre & rest & -> & _ & Hrest).
    destruct (lower_split _ _ _ Hrest) as (mid & post & -> & Hmid & _).
    now exists pre, mid, post.
  - intros (pre & mid & post & -> & Hmid).
    exists (Py.lower pre), (Py.lower post). now rewrite !lower_app, Hmid.
Qed.

(** X18. Whatever the user name, the tool returns three tasks with the ids
    task1, task2 and task3, the second one completed; the titles are the
    personal ones exactly when the user name contains lital in some mix of
    case, and the work ones otherwise. *)
Theorem get_daily_tasks_shape username :
  map Task.id (get_daily_tasks username) = ["task1"; "task2"; "task3"]
  /\ map Task.completed (get_daily_tasks username) = [false; true; false]
  /\ (mentions "lital" username ->
      map Task.title (get_daily_tasks username)
      = ["Take daughter from kindergarten"; "Make dinner"; "Read a chapter in my book"])
  /\ (~ mentions "lital" username ->
      map Task.title (get_daily_tasks username)
      = ["Finish the quarterly report"; "Prepare for the team meeting";
         "Review pull requests"]).
Proof.
  unfold get_daily_tasks.
  destruct (Py.contains "lital" (Py.lower username)) eqn:Hc.
  - apply contains_lower_spec in Hc. repeat split; try reflexivity.
    intros Hn. contradiction.
  - repeat split; try reflexivity.
    intros Hm. apply contains_lower_spec in Hm. congruence.
Qed.

Lemma get_daily_tasks_shape_witness :
  mentions "lital" "Dr. LITAL T."
  /\ map Task.title (get_daily_tasks "Dr. LITAL T.")
     = ["Take daughter from kindergarten"; "Make dinner"; "Read a chapter in my book"]
  /\ ~ mentions "lital" "lita"
  /\ map Task.title (get_daily_tasks "lita")
     = ["Finish the quarterly report"; "Prepare for the team meeting";
        "Review pull requests"].
Proof.
  assert (H1 : mentions "lital" "Dr. LITAL T.")
    by (exists "Dr. ", "LITAL", " T."; split; reflexivity).
  assert (H2 : ~ mentions "lital" "lita")
    by (intros H; apply contains_lower_spec in H; discriminate).
  split; [exact H1 |].
  split; [exact (proj1 (proj2 (proj2 (get_daily_tasks_shape "Dr. LITAL T."))) H1) |].
  split; [exact H2 |].
  exact (proj2 (proj2 (proj2 (get_daily_tasks_shape "lita"))) H2).
Defined.

(** ** Agent set-up and start-up *)

Section ProvisioningFacts.

Context {Tool Any : Type} `{EqDecision Tool} `{EqDecision Any}.

(** The options [setup_agent] sends along: the response format when it is
    given and not empty. *)
Lemma setup_agent_run (provider : Provider (Tool := Tool) (Any := Any))
    agent_name tools response_format :
  let opts := if truthy_dict response_format then response_format else None in
  setup_agent provider agent_name tools response_format
  = match get_agent provider agent_name tools opts with
    | Raised e => ([GetAgent agent_name tools opts], Raised (setup_error agent_name e))
    | Returned agent =>
        if bool_decide (options_tools agent = Some tools)
           && bool_decide (options_response_format agent = response_format)
        then ([GetAgent agent_name tools opts], Returned agent)
        else
          ([GetAgent agent_name tools opts;
            CreateAgent agent_name (model_id agent) (instructions_or_empty agent)
                        tools opts],
           match create_agent provider agent_name (model_id agent)
                              (instructions_or_empty agent) tools opts with
           | Returned a => Returned a
           | Raised e => Raised (setup_error agent_name e)
           end)
    end.
Proof.
  cbv zeta. unfold setup_agent, act_try, act_bind, act_call, act_ret, act_raise.
  destruct (get_agent provider agent_name tools _) as [agent|e]; [| reflexivity].
  destruct (bool_decide (options_tools agent = Some tools)
            && bool_decide (options_response_format agent = response_format));
    [reflexivity |].
  destruct (create_agent provider agent_name _ _ tools _) as [a|e]; reflexivity.
Qed.

(** X19. When the agent the provider knows already has the wanted tools and
    response format, [setup_agent] returns it as it is and creates
    nothing: its only call is the one [get_agent]. *)
Theorem setup_agent_up_to_date (provider : Provider (Tool := Tool) (Any := Any))
    agent_name tools response_format agent :
  get_agent provider agent_name tools
            (if truthy_dict response_format then response_format else None)
  = Returned agent ->
  options_tools agent = Some tools ->
  options_response_format agent = response_format ->
  setup_agent provider agent_name tools response_format
  = ([GetAgent agent_name tools
               (if truthy_dict response_format then response_format else None)],
     Returned agent).
Proof.
  intros Hget Htools Hformat. rewrite setup_agent_run. cbv zeta. rewrite Hget.
  now rewrite !bool_decide_eq_true_2.
Qed.

(** X20. When the known agent differs in its tools or its response format,
    [setup_agent] creates a new version under the same name, with the model
    and the instructions of the known agent (empty instructions when it has
    none) and the wanted tools and options, and returns what [create_agent]
    gives. *)
Theorem setup_agent_new_version (provider : Provider (Tool := Tool) (Any := Any))
    agent_name tools response_format agent :
  get_agent provider agent_name tools
            (if truthy_dict response_format then response_format else None)
  = Returned agent ->
  options_tools agent <> Some tools \/ options_response_format agent <> response_format ->
  setup_agent provider agent_name tools response_format
  = (let opts := if truthy_dict response_format then response_format else None in
     ([GetAgent agent_name tools opts;
       CreateAgent agent_name (model_id agent) (instructions_or_empty agent) tools opts],
      match create_agent provider agent_name (model_id agent)
                         (instructions_or_empty agent) tools opts with
      | Returned a => Returned a
      | Raised e => Raised (setup_error agent_name e)
      end)).
Proof.
  intros Hget Hdiff. rewrite setup_agent_run. cbv zeta. rewrite Hget.
  destruct Hdiff as [Hd | Hd].
  - now rewrite (bool_decide_eq_false_2 _ Hd).
  - rewrite (bool_decide_eq_false_2 _ Hd). now rewrite andb_false_r.
Qed.

Lemma setup_agent_raises (provider : Provider (Tool := Tool) (Any := Any))
    agent_name tools response_format msg :
  snd (setup_agent provider agent_name tools response_format) = Raised msg ->
  exists e, msg = setup_error agent_name e.
Proof.
  rewrite setup_agent_run. cbv zeta.
  destruct (get_agent provider agent_name tools _) as [agent|e].
  - destruct (bool_decide _ && bool_decide _); [discriminate |].
    simpl. destruct (create_agent _ _ _ _ _ _) as [a|e]; [discriminate |].
    intros [= <-]. now exists e.
  - intros [= <-]. now exists e.
Qed.

Lemma setup_agent_calls (provider : Provider (Tool := Tool) (Any := Any))
    agent_name tools response_format :
  exists rest,
    fst (setup_agent provider agent_name tools response_format)
    = GetAgent agent_name tools
               (if truthy_dict response_format then response_format else None)
        :: rest
    /\ (length rest <= 1)%nat.
Proof.
  rewrite setup_agent_run. cbv zeta.
  destruct (get_agent provider agent_name tools _) as [agent|e].
  - destruct (bool_decide _ && bool_decide _);
      eexists; (split; [reflexivity | simpl; lia]).
  - eexists. split; [reflexivity | simpl; lia].
Qed.

(** X21. Whenever [setup_agent] raises, the message is the one of line 195: it
    names the agent and ends with the text of the provider's exception;
    and [setup_agent] always starts with [get_agent] and makes at most one
    more call. *)
Theorem setup_agent_errors_wrapped (provider : Provider (Tool := Tool) (Any := Any))
    agent_name tools response_format :
  (forall msg,
     snd (setup_agent provider agent_name tools response_format) = Raised msg ->
     exists e,
       msg = "Error occurred while setup of agent '" +:+ agent_name +:+ "': " +:+ e)
  /\ exists rest,
       fst (setup_agent provider agent_name tools response_format)
       = GetAgent agent_name tools
                  (if truthy_dict response_format then response_format else None)
           :: rest
       /\ (length rest <= 1)%nat.
Proof.
  split; [| apply setup_agent_calls].
  intros msg Hmsg. exact (setup_agent_raises _ _ _ _ _ Hmsg).
Qed.

End ProvisioningFacts.

Lemma setup_agent_up_to_date_witness :
  let provider := scripted_provider "https://example.test" in
  let agent := known_agent "chat" ["tasks"] None in
  let wanted : option (gmap string string) := None in
  (get_agent provider "chat" ["tasks"] (if truthy_dict wanted then wanted else None)
   = Returned agent
   /\ options_tools agent = Some ["tasks"]
   /\ options_response_format agent = wanted)
  /\ setup_agent provider "chat" ["tasks"] wanted
     = ([GetAgent "chat" ["tasks"] (if truthy_dict wanted then wanted else None)],
        Returned agent).
Proof.
  intros provider agent wanted.
  assert (H1 : get_agent provider "chat" ["tasks"]
                 (if truthy_dict wanted then wanted else None) = Returned agent)
    by reflexivity.
  assert (H2 : options_tools agent = Some ["tasks"]) by reflexivity.
  assert (H3 : options_response_format agent = wanted) by reflexivity.
  split; [repeat split; assumption |].
  exact (setup_agent_up_to_date provider "chat" ["tasks"] wanted agent H1 H2 H3).
Defined.

Lemma setup_agent_new_version_witness :
  let provider := scripted_provider "https://example.test" in
  let wanted : option (gmap string string) := Some {["type" := "json_schema"]} in
  let agent := known_agent "builder" ["tasks"] (Some {["type" := "text"]}) in
  (get_agent provider "builder" ["tasks"] (if truthy_dict wanted then wanted else None)
   = Returned agent
   /\ (options_tools agent <> Some ["tasks"]
       \/ options_response_format agent <> wanted))
  /\ setup_agent provider "builder" ["tasks"] wanted
     = (let opts := if truthy_dict wanted then wanted else None in
        ([GetAgent "builder" ["tasks"] opts;
          CreateAgent "builder" (model_id agent) (instructions_or_empty agent)
                      ["tasks"] opts],
         match create_agent provider "builder" (model_id agent)
                            (instructions_or_empty agent) ["tasks"] opts with
         | Returned a => Returned a
         | Raised e => Raised (setup_error "builder" e)
         end)).
Proof.
  intros provider wanted agent.
  assert (H1 : get_agent provider "builder" ["tasks"]
                 (if truthy_dict wanted then wanted else None) = Returned agent)
    by reflexivity.
  assert (H2 : options_tools agent <> Some ["tasks"]
               \/ options_response_format agent <> wanted).
  { right. intros H. apply (f_equal (fun o => o ≫= (fun m => m !! "type"))) in H.
    vm_compute in H. discriminate. }
  split; [split; assumption |].
  exact (setup_agent_new_version provider "builder" ["tasks"] wanted agent H1 H2).
Defined.

Lemma setup_agent_errors_wrapped_witness :
  let provider := scripted_provider "https://example.test" in
  snd (setup_agent provider "missing" ["tasks"] None)
  = Raised "Error occurred while setup of agent 'missing': agent not found"
  /\ exists e,
       "Error occurred while setup of agent 'missing': agent not found"
       = "Error occurred while setup of agent '" +:+ "missing" +:+ "': " +:+ e.
Proof.
  intros provider.
  assert (H : snd (setup_agent provider "missing" ["tasks"] None)
              = Raised "Error occurred while setup of agent 'missing': agent not found")
    by reflexivity.
  split; [exact H |].
  exact (proj1 (setup_agent_errors_wrapped provider "missing" ["tasks"] None) _ H).
Defined.

Section StartupFacts.

Context {Tool Any : Type} `{EqDecision Tool} `{EqDecision Any}.
Variable AzureAIProjectAgentProvider : string -> Provider (Tool := Tool) (Any := Any).
Variable get_daily_tasks_tool : Tool.
Variable calendar_format_type : Any.
Variable calendar_json_schema : Any.

Lemma required_env_run (environ : gmap string string) key :
  required_env (Tool := Tool) (Any := Any) environ key
  = match environ !! key with
    | Some value =>
        if Py.truthy value then ([], Returned value)
        else ([], Raised (key +:+ " environment variable is required"))
    | None => ([], Raised (key +:+ " environment variable is required"))
    end.
Proof.
  unfold required_env. destruct (environ !! key) as [v|]; [| reflexivity].
  now destruct (Py.truthy v).
Qed.

(** The calendar response format is not empty, so it is sent along. *)
Lemma calendar_format_truthy :
  truthy_dict (Some (calendar_response_format calendar_format_type calendar_json_schema))
  = true.
Proof.
  unfold truthy_dict, calendar_response_format.
  rewrite bool_decide_eq_false_2; [reflexivity |]. apply insert_non_empty.
Qed.

(** Start-up with the three variables set: the chat agent is set up first,
    without response format, then the builder with the calendar format;
    the first failure ends start-up. *)
Lemma startup_run (environ : gmap string string) endpoint chat_name builder_name :
  environ !! "AIServices:AzureAIFoundryProjectEndpoint" = Some endpoint ->
  Py.truthy endpoint = true ->
  environ !! "AIServices:ChatAgentID" = Some chat_name ->
  Py.truthy chat_name = true ->
  environ !! "AIServices:BuilderAgentID" = Some builder_name ->
  Py.truthy builder_name = true ->
  startup AzureAIProjectAgentProvider get_daily_tasks_tool
          calendar_format_type calendar_json_schema environ
  = let provider := AzureAIProjectAgentProvider endpoint in
    let format := calendar_response_format calendar_format_type calendar_json_schema in
    match setup_agent provider chat_name [get_daily_tasks_tool] None with
    | (calls1, Raised e) => (calls1, Raised e)
    | (calls1, Returned chat) =>
        match setup_agent provider builder_name [get_daily_tasks_tool] (Some format) with
        | (calls2, Raised e) => (calls1 ++ calls2, Raised e)
        | (calls2, Returned builder) =>
            (calls1 ++ calls2,
             Returned {| state_provider := provider;
                         state_aif_client := {| chat_agent := handle chat;
                                                builder_agent := handle builder |};
                         state_storage := InMemoryStorage.init |})
        end
    end.
Proof.
  intros He Het Hc Hct Hb Hbt. unfold startup.
  rewrite !required_env_run, He, Het, Hc, Hct, Hb, Hbt. cbv zeta.
  unfold act_bind at 1. unfold act_bind at 1. unfold act_bind at 1. simpl.
  destruct (setup_agent _ chat_name _ None) as [calls1 [chat|e]]; [| reflexivity].
  simpl.
  destruct (setup_agent _ builder_name _ (Some _)) as [calls2 [builder|e]];
    simpl; now rewrite ?app_nil_r.
Qed.

(** X22. Start-up refuses to run without its configuration: when one of the
    three variables is missing or empty, it raises the message that names
    the first such variable (endpoint, chat agent, builder agent, in that
    order) and makes no call on the provider. *)
Theorem startup_requires_environment (environ : gmap string string) :
  let run := startup AzureAIProjectAgentProvider get_daily_tasks_tool
                     calendar_format_type calendar_json_schema environ in
  (Py.truthy_opt (environ !! "AIServices:AzureAIFoundryProjectEndpoint") = false ->
   run = ([], Raised "AIServices:AzureAIFoundryProjectEndpoint environment variable is required"))
  /\ (Py.truthy_opt (environ !! "AIServices:AzureAIFoundryProjectEndpoint") = true ->
      Py.truthy_opt (environ !! "AIServices:ChatAgentID") = false ->
      run = ([], Raised "AIServices:ChatAgentID environment variable is required"))
  /\ (Py.truthy_opt (environ !! "AIServices:AzureAIFoundryProjectEndpoint") = true ->
      Py.truthy_opt (environ !! "AIServices:ChatAgentID") = true ->
      Py.truthy_opt (environ !! "AIServices:BuilderAgentID") = false ->
      run = ([], Raised "AIServices:BuilderAgentID environment variable is required")).
Proof.
  cbv zeta. unfold startup. rewrite !required_env_run.
  unfold Py.truthy_opt.
  destruct (environ !! "AIServices:AzureAIFoundryProjectEndpoint") as [e|];
    [destruct (Py.truthy e) |];
    (split; [intros H; try discriminate; reflexivity |]);
    (split; intros H; try discriminate).
  - destruct (environ !! "AIServices:ChatAgentID") as [c|];
      [destruct (Py.truthy c) |]; intros H1; try discriminate; reflexivity.
  - destruct (environ !! "AIServices:ChatAgentID") as [c|];
      [destruct (Py.truthy c) |]; intros H1; try discriminate.
    destruct (environ !! "AIServices:BuilderAgentID") as [b|];
      [destruct (Py.truthy b) |]; intros H2; try discriminate; reflexivity.
Qed.

(** X23. When start-up succeeds, the store of the client is empty, the provider
    is the one of the configured endpoint, the first call asks for the chat
    agent without response format, and the builder agent has been asked
    for with the calendar response format. *)
Theorem startup_success (environ : gmap string string) calls app :
  startup AzureAIProjectAgentProvider get_daily_tasks_tool
          calendar_format_type calendar_json_schema environ
  = (calls, Returned app) ->
  exists endpoint chat_name builder_name rest,
    environ !! "AIServices:AzureAIFoundryProjectEndpoint" = Some endpoint
    /\ environ !! "AIServices:ChatAgentID" = Some chat_name
    /\ environ !! "AIServices:BuilderAgentID" = Some builder_name
    /\ state_storage app = InMemoryStorage.init
    /\ state_provider app = AzureAIProjectAgentProvider endpoint
    /\ calls = GetAgent chat_name [get_daily_tasks_tool] None :: rest
    /\ GetAgent builder_name [get_daily_tasks_tool]
                (Some (calendar_response_format calendar_format_type calendar_json_schema))
       ∈ calls
    /\ (length calls <= 4)%nat.
Proof.
  intros Hrun.
  destruct (environ !! "AIServices:AzureAIFoundryProjectEndpoint") as [endpoint|] eqn:He;
    [| unfold startup in Hrun; rewrite required_env_run, He in Hrun; discriminate].
  destruct (Py.truthy endpoint) eqn:Het;
    [| unfold startup in Hrun; rewrite required_env_run, He, Het in Hrun; discriminate].
  destruct (environ !! "AIServices:ChatAgentID") as [chat_name|] eqn:Hc;
    [| unfold startup in Hrun; rewrite !required_env_run, He, Het, Hc in Hrun;
       discriminate].
  destruct (Py.truthy chat_name) eqn:Hct;
    [| unfold startup in Hrun; rewrite !required_env_run, He, Het, Hc, Hct in Hrun;
       discriminate].
  destruct (environ !! "AIServices:BuilderAgentID") as [builder_name|] eqn:Hb;
    [| unfold startup in Hrun; rewrite !required_env_run, He, Het, Hc, Hct, Hb in Hrun;
       discriminate].
  destruct (Py.truthy builder_name) eqn:Hbt;
    [| unfold startup in Hrun;
       rewrite !required_env_run, He, Het, Hc, Hct, Hb, Hbt in Hrun; discriminate].
  rewrite (startup_run environ endpoint chat_name builder_name He Het Hc Hct Hb Hbt)
    in Hrun.
  cbv zeta in Hrun.
  destruct (setup_agent_calls (AzureAIProjectAgentProvider endpoint) chat_name
              [get_daily_tasks_tool] None) as (rest1 & Hcalls1 & Hlen1).
  destruct (setup_agent_calls (AzureAIProjectAgentProvider endpoint) builder_name
              [get_daily_tasks_tool]
              (Some (calendar_response_format calendar_format_type calendar_json_schema)))
    as (rest2 & Hcalls2 & Hlen2).
  rewrite calendar_format_truthy in Hcalls2.
  destruct (setup_agent _ chat_name _ None) as [calls1 [chat|e]]; [| discriminate].
  destruct (setup_agent _ builder_name _ (Some _)) as [calls2 [builder|e]];
    [| discriminate].
  simpl in Hcalls1, Hcalls2. subst calls1 calls2.
  injection Hrun as <- <-.
  exists endpoint, chat_name, builder_name, (rest1 ++ GetAgent builder_name
    [get_daily_tasks_tool]
    (Some (calendar_response_format calendar_format_type calendar_json_schema)) :: rest2).
  repeat split; try reflexivity.
  - right. apply elem_of_app. right. left.
  - simpl. rewrite length_app. simpl. lia.
Qed.

End StartupFacts.

Lemma startup_requires_environment_witness :
  let environ : gmap string string :=
    <["AIServices:AzureAIFoundryProjectEndpoint" := "https://example.test"]>
      (<["AIServices:ChatAgentID" := EmptyString]> ∅) in
  (Py.truthy_opt (environ !! "AIServices:AzureAIFoundryProjectEndpoint") = true
   /\ Py.truthy_opt (environ !! "AIServices:ChatAgentID") = false)
  /\ startup scripted_provider "tasks" "json_schema" "{}" environ
     = ([], Raised "AIServices:ChatAgentID environment variable is required").
Proof.
  intros environ.
  assert (H1 : Py.truthy_opt (environ !! "AIServices:AzureAIFoundryProjectEndpoint") = true)
    by reflexivity.
  assert (H2 : Py.truthy_opt (environ !! "AIServices:ChatAgentID") = false)
    by reflexivity.
  split; [split; assumption |].
  exact (proj1 (proj2 (startup_requires_environment scripted_provider "tasks"
                         "json_schema" "{}" environ)) H1 H2).
Defined.

Lemma startup_success_witness :
  exists calls app,
    startup scripted_provider "tasks" "json_schema" "{}" full_environ
    = (calls, Returned app)
    /\ exists endpoint chat_name builder_name rest,
         full_environ !! "AIServices:AzureAIFoundryProjectEndpoint" = Some endpoint
         /\ full_environ !! "AIServices:ChatAgentID" = Some chat_name
         /\ full_environ !! "AIServices:BuilderAgentID" = Some builder_name
         /\ state_storage app = InMemoryStorage.init
         /\ state_provider app = scripted_provider endpoint
         /\ calls = GetAgent chat_name ["tasks"] None :: rest
         /\ GetAgent builder_name ["tasks"]
                     (Some (calendar_response_format "json_schema" "{}"))
            ∈ calls
         /\ (length calls <= 4)%nat.
Proof.
  destruct (startup scripted_provider "tasks" "json_schema" "{}" full_environ)
    as [calls [app|msg]] eqn:Hrun; [| vm_compute in Hrun; discriminate].
  exists calls, app. split; [reflexivity |].
  exact (startup_success scripted_provider "tasks" "json_schema" "{}" full_environ
           calls app Hrun).
Defined.


(** Start-up with a provider whose builder agent is out of date: one call
    for the chat agent, two for the builder. *)
Example startup_run_example :
  fst (startup scripted_provider "tasks" "json_schema" "{}" full_environ)
  = [GetAgent "chat" ["tasks"] None;
     GetAgent "builder" ["tasks"] (Some (calendar_response_format "json_schema" "{}"));
     CreateAgent "builder" (Some "gpt-4o") (Some "Be brief.") ["tasks"]
                 (Some (calendar_response_format "json_schema" "{}"))].
Proof. vm_compute. reflexivity. Qed.
